(** * Water-quality predictor: the encode -> predict path of [app.py]

    The Streamlit script [app.py] loads two artifacts with [joblib.load]
    (a fitted estimator and the list of training-time column names) and,
    when the button is pressed with a non-empty station id, builds a
    one-row [DataFrame], one-hot encodes the [id] column, zero-fills the
    columns of [model_cols] that are missing, reorders the frame to
    [model_cols], calls [model.predict] and shows the first output row.

    The development embeds that path: one-row data frames with the pandas
    operations the script calls, a store of Python objects with the
    script's global names, and the button handler as a program in a state
    and exception monad over that store.  Static markup ([st.markdown],
    the CSS block, the help texts) is left out. *)

From Stdlib Require Import ZArith String List.
From stdpp Require Import base option list gmap strings pretty.

Local Open Scope string_scope.
Local Open Scope list_scope.

(** ** Exceptions raised on the path *)

Inductive exn : Type :=
  | KeyError        (* a column label that the frame does not have *)
  | NameError       (* a global name that is not bound *)
  | TypeError       (* an object of the wrong kind *)
  | IndexError      (* [rows[0]] on an empty result *)
  | ValueError      (* columns of different lengths in a new frame *)
  | EstimatorError  (* raised inside [model.predict] *)
  | FileNotFoundError  (* [joblib.load] on a path that does not exist *)
  | UnpicklingError.   (* [joblib.load] on a file that does not unpickle *)

(** ** One-row data frames *)

(** The pandas operations the script calls, as pandas defines them, on
    frames of a single row: the script never builds a longer one before
    the estimator is called. *)
Module pd.

(** A cell of the single row.  [year_input] is a Python [int], the
    station id a [str], a dummy column a [bool] (pandas 2; the older
    [uint8] dummy has the same numeric value). *)
Inductive value : Type :=
  | VInt (z : Z)
  | VBool (b : bool)
  | VStr (s : string).

(** Columns in index order; labels may repeat, as in pandas. *)
Abbreviation DataFrame := (list (string * value)).

Definition columns (df : DataFrame) : list string := df.*1.

Definition values (df : DataFrame) : list value := df.*2.

(** [col in df.columns] *)
Definition has_column (col : string) (df : DataFrame) : bool :=
  bool_decide (col ∈ columns df).

(** The number NumPy sees in a cell: [True] is 1, [False] is 0; a
    string has none. *)
Definition numeric (v : value) : option Z :=
  match v with
  | VInt z => Some z
  | VBool b => Some (if b then 1 else 0)%Z
  | VStr _ => None
  end.

(** [df[key]] with a list of labels: the columns carrying each label,
    in the order of [key]; a label without a column raises. *)
Fixpoint getitem (df : DataFrame) (key : list string) : exn + DataFrame :=
  match key with
  | [] => inr []
  | c :: key' =>
      match filter (λ cv, cv.1 = c) df with
      | [] => inl KeyError
      | hit =>
          match getitem df key' with
          | inl e => inl e
          | inr rest => inr (hit ++ rest)
          end
      end
  end.

(** [df[col] = v]: overwrite the columns labelled [col], or append a
    new last column. *)
Definition setitem (df : DataFrame) (col : string) (v : value) : DataFrame :=
  if has_column col df
  then (λ cv, if decide (cv.1 = col) then (col, v) else cv) <$> df
  else df ++ [(col, v)].

(** The text of a category level in a dummy label. *)
Definition level (v : value) : string :=
  match v with
  | VStr s => s
  | VInt z => pretty z
  | VBool b => if b then "True" else "False"
  end.

(** [pd.get_dummies(data, columns=cols)] on one row: the columns not
    encoded keep their place, then one dummy per encoded column, named
    [<column>_<level>] and holding [True]. *)
Definition get_dummies (data : DataFrame) (cols : list string) : exn + DataFrame :=
  match getitem data cols with
  | inl e => inl e
  | inr data_to_encode =>
      inr (filter (λ cv, cv.1 ∉ cols) data
           ++ ((λ cv, (cv.1 +:+ "_" +:+ level cv.2, VBool true)) <$> data_to_encode))
  end.

End pd.

Import pd.

(** ** The store: global names, objects, and the calls that leave the script *)

Abbreviation loc := positive.

Section Script.

(** The scalars of the estimator's output (NumPy floats); the script
    only passes them on. *)
Context {num : Type}.

(** The fitted estimator, as far as the script uses it: [predict] takes
    a feature table and returns a 2-D array, or raises. *)
Record Estimator : Type := { predict : DataFrame → exn + list (list num) }.

Inductive obj : Type :=
  | ODataFrame (df : DataFrame)
  | OList (l : list string)
  | OEstimator (m : Estimator).

(** Calls to the outside, in the order they are made. *)
Inductive event : Type :=
  | st_warning (body : string)
  | st_info (body : string)
  | st_success (station_id : string) (year_input : Z)   (* the banner of line 117 *)
  | st_success_text (body : string)                     (* [st.success] on a literal *)
  | st_metric (label : string) (val : num) (unit : string)
  | st_bar_chart (chart_data : list (string * num))
  | model_predict (X : DataFrame).

Record state : Type := State {
  globals : gmap string loc;   (* the script's names *)
  heap : gmap loc obj;         (* the objects they refer to *)
  log : list event
}.

(** *** State and exception monad *)

Definition M (A : Type) : Type := state → (exn + A) * state.

#[global] Instance M_ret : MRet M := λ A a σ, (inr a, σ).

#[global] Instance M_bind : MBind M := λ A B k m σ,
  match m σ with
  | (inl e, σ') => (inl e, σ')
  | (inr a, σ') => k a σ'
  end.

Definition raise {A} (e : exn) : M A := λ σ, (inl e, σ).

Definition lift {A} (r : exn + A) : M A := λ σ, (r, σ).

Definition lookup_name (name : string) : M loc := λ σ,
  match globals σ !! name with
  | Some l => (inr l, σ)
  | None => (inl NameError, σ)
  end.

(** [name = <object at l>] *)
Definition assign (name : string) (l : loc) : M unit := λ σ,
  (inr (), State (<[name := l]> (globals σ)) (heap σ) (log σ)).

(** A new object, at a location no object has. *)
Definition new (o : obj) : M loc := λ σ,
  let l := fresh (dom (heap σ)) in
  (inr l, State (globals σ) (<[l := o]> (heap σ)) (log σ)).

Definition load (l : loc) : M obj := λ σ,
  match heap σ !! l with
  | Some o => (inr o, σ)
  | None => (inl NameError, σ)
  end.

(** In-place update of the object at [l]. *)
Definition store (l : loc) (o : obj) : M unit := λ σ,
  (inr (), State (globals σ) (<[l := o]> (heap σ)) (log σ)).

Definition emit (e : event) : M unit := λ σ,
  (inr (), State (globals σ) (heap σ) (log σ ++ [e])).

Definition frame_of (name : string) : M DataFrame :=
  l ← lookup_name name;
  o ← load l;
  match o with ODataFrame df => mret df | _ => raise TypeError end.

Definition list_of (name : string) : M (list string) :=
  l ← lookup_name name;
  o ← load l;
  match o with OList xs => mret xs | _ => raise TypeError end.

Definition estimator_of (name : string) : M Estimator :=
  l ← lookup_name name;
  o ← load l;
  match o with OEstimator m => mret m | _ => raise TypeError end.

(** [for x in xs: body] over the items of a list that the body does not
    write. *)
Fixpoint for_each {A} (xs : list A) (body : A → M unit) : M unit :=
  match xs with
  | [] => mret ()
  | x :: xs' => body x;; for_each xs' body
  end.

(** *** Startup: lines 10-11 *)

Record artifacts : Type := {
  pollution_model_pkl : Estimator;
  model_columns_pkl : list string
}.

(** What [joblib.load] meets at the two paths: the object the file
    unpickles to, or the exception the call raises (the path does not
    exist, the file does not unpickle). *)
Record disk : Type := {
  pollution_model_pkl_file : exn + Estimator;
  model_columns_pkl_file : exn + list string
}.

(** The disk on which both files are there and sound. *)
Definition readable (files : artifacts) : disk :=
  {| pollution_model_pkl_file := inr (pollution_model_pkl files);
     model_columns_pkl_file := inr (model_columns_pkl files) |}.

(** [joblib.load(path)]: a new object, or the exception. *)
Definition joblib_load {A} (file : exn + A) (box : A → obj) : M loc :=
  content ← lift file;
  new (box content).

Definition startup (d : disk) : M unit :=
  m ← joblib_load (pollution_model_pkl_file d) OEstimator;
  assign "model" m;;
  c ← joblib_load (model_columns_pkl_file d) OList;
  assign "model_cols" c.

Definition empty_state : state := State ∅ ∅ [].

(** *** The button handler: lines 99-127 *)

Definition pollutants : list string :=
  ["O₂"; "NO₃"; "NO₂"; "SO₄"; "PO₄"; "Cl⁻"].

Definition pollutant_units : list string :=
  ["mg/L"; "mg/L"; "mg/L"; "mg/L"; "mg/L"; "mg/L"].

(** [not station_id] is true for the empty [str] only. *)
Definition truthy (s : string) : bool :=
  match s with EmptyString => false | String _ _ => true end.

(** [if col not in input_encoded.columns: input_encoded[col] = 0] *)
Definition fill_column (col : string) : M unit :=
  df ← frame_of "input_encoded";
  if negb (has_column col df)
  then l ← lookup_name "input_encoded"; store l (ODataFrame (setitem df col (VInt 0)))
  else mret ().

(** Lines 104-110: afterwards [input_encoded] names the aligned frame. *)
Definition encode (year_input : Z) (station_id : string) : M unit :=
  l ← new (ODataFrame [("year", VInt year_input); ("id", VStr station_id)]);
  assign "input_df" l;;
  data ← frame_of "input_df";
  dummies ← lift (get_dummies data ["id"]);
  l ← new (ODataFrame dummies);
  assign "input_encoded" l;;
  cols ← list_of "model_cols";
  for_each cols fill_column;;
  df ← frame_of "input_encoded";
  key ← list_of "model_cols";
  selected ← lift (getitem df key);
  l ← new (ODataFrame selected);
  assign "input_encoded" l.

(** [zip(pollutants, predicted_pollutants, pollutant_units)] *)
Fixpoint zip3 {A B C} (xs : list A) (ys : list B) (zs : list C) : list (A * B * C) :=
  match xs, ys, zs with
  | x :: xs', y :: ys', z :: zs' => (x, y, z) :: zip3 xs' ys' zs'
  | _, _, _ => []
  end.

(** [pd.DataFrame({'Pollutant': pollutants, 'Concentration (mg/L)': ...})]:
    the two columns must have one length. *)
Definition chart_frame (labels : list string) (vals : list num)
  : exn + list (string * num) :=
  if decide (length labels = length vals) then inr (zip labels vals) else inl ValueError.

(** Line 113: [predicted_pollutants = model.predict(input_encoded)[0]] *)
Definition predict_step : M (list num) :=
  m ← estimator_of "model";
  X ← frame_of "input_encoded";
  emit (model_predict X);;
  rows ← lift (predict m X);
  lift (match rows with r :: _ => inr r | [] => inl IndexError end).

(** Lines 117-136: the success banner, one metric per zipped triple, and
    the bar chart. *)
Definition show_results (year_input : Z) (station_id : string)
    (predicted_pollutants : list num) : M unit :=
  emit (st_success station_id year_input);;
  for_each (zip3 pollutants predicted_pollutants pollutant_units)
           (λ pvu, emit (st_metric pvu.1.1 pvu.1.2 pvu.2));;
  chart_data ← lift (chart_frame pollutants predicted_pollutants);
  emit (st_bar_chart chart_data).

(** What one run of the results panel hands back. *)
Inductive outcome : Type :=
  | Idle                                   (* button not pressed *)
  | Warned                                 (* empty station id *)
  | Predicted (predicted_pollutants : list num).

(** Lines 113-136 together. *)
Definition predict_and_show (year_input : Z) (station_id : string) : M outcome :=
  predicted_pollutants ← predict_step;
  show_results year_input station_id predicted_pollutants;;
  mret (Predicted predicted_pollutants).

(** The two texts of lines 101 and 160. *)
Definition station_warning : string := "⚠️ Please enter a valid station ID".

Definition configure_hint : string :=
  "👈 Configure parameters in the sidebar and click 'Predict' to see water quality analysis".

(** Lines 99-136 and the [else] of lines 159-160. *)
Definition results_panel (predict_button : bool) (year_input : Z) (station_id : string)
  : M outcome :=
  if predict_button then
    if negb (truthy station_id) then
      emit (st_warning station_warning);; mret Warned
    else
      encode year_input station_id;;
      predict_and_show year_input station_id
  else
    emit (st_info configure_hint);;
    mret Idle.

End Script.

(** ** What the encoding computes, as a function of the inputs *)

(** The frame that [get_dummies] returns for the request. *)
Definition dummies_row (year_input : Z) (station_id : string) : DataFrame :=
  [("year", VInt year_input); ("id_" +:+ station_id, VBool true)].

(** One turn of the loop of lines 107-109, on the frame alone. *)
Definition fill_step (df : DataFrame) (col : string) : DataFrame :=
  if negb (has_column col df) then setitem df col (VInt 0) else df.

Definition zero_fill (df : DataFrame) (cols : list string) : DataFrame :=
  foldl fill_step df cols.

(** The cell the specification gives to column [col]: the year under
    [year], 1 ([True]) under the request's own dummy label, 0 elsewhere. *)
Definition cell (year_input : Z) (station_id col : string) : value :=
  if decide (col = "year") then VInt year_input
  else if decide (col = "id_" +:+ station_id) then VBool true
  else VInt 0.

(** The specification's feature vector: one cell per name of
    [model_columns], in its order. *)
Definition aligned_row (year_input : Z) (station_id : string) (model_columns : list string)
  : DataFrame :=
  (λ col, (col, cell year_input station_id col)) <$> model_columns.

(** *** Observing a state *)

(** The frame a global name refers to, if it does. *)
Definition frame_at {num} (name : string) (σ : state (num:=num)) : option DataFrame :=
  match globals σ !! name with
  | Some l => match heap σ !! l with Some (ODataFrame df) => Some df | _ => None end
  | None => None
  end.

Definition list_at {num} (name : string) (σ : state (num:=num)) : option (list string) :=
  match globals σ !! name with
  | Some l => match heap σ !! l with Some (OList xs) => Some xs | _ => None end
  | None => None
  end.

Definition estimator_at {num} (name : string) (σ : state (num:=num))
  : option (Estimator (num:=num)) :=
  match globals σ !! name with
  | Some l => match heap σ !! l with Some (OEstimator m) => Some m | _ => None end
  | None => None
  end.

(** [model] and [model_cols] name the objects read from the two files. *)
Definition loaded {num} (files : artifacts (num:=num)) (σ : state) : Prop :=
  estimator_at "model" σ = Some (pollution_model_pkl files)
  ∧ list_at "model_cols" σ = Some (model_columns_pkl files).

(** The row as numbers, as the estimator reads it; [None] if a cell is
    not a number. *)
Definition to_numpy (df : DataFrame) : option (list Z) := mapM numeric (values df).

(** The events a run added to the log. *)
Definition shown {num} (σ σ' : state (num:=num)) : list event :=
  drop (length (log σ)) (log σ').

(** The tables handed to [model.predict], in call order. *)
Definition predict_calls {num} (evs : list (event (num:=num))) : list DataFrame :=
  omap (λ e, match e with model_predict X => Some X | _ => None end) evs.

(** The metrics shown for a row of predictions. *)
Definition metrics {num} (predicted_pollutants : list num) : list event :=
  (λ pvu, st_metric pvu.1.1 pvu.1.2 pvu.2)
    <$> zip3 pollutants predicted_pollutants pollutant_units.

(** What lines 113-136 return and show, as a function of the estimator
    and the table it is given. *)
Definition prediction_events {num} (m : Estimator) (X : DataFrame)
    (year_input : Z) (station_id : string) : (exn + outcome (num:=num)) * list event :=
  match predict m X with
  | inl e => (inl e, [model_predict X])
  | inr [] => (inl IndexError, [model_predict X])
  | inr (r :: _) =>
      match chart_frame pollutants r with
      | inl e => (inl e, model_predict X :: st_success station_id year_input :: metrics r)
      | inr chart_data =>
          (inr (Predicted r),
           model_predict X :: st_success station_id year_input :: metrics r
           ++ [st_bar_chart chart_data])
      end
  end.

(** The estimator was fitted on six targets: every row it returns has
    six entries. *)
Definition six_targets {num} (m : Estimator (num:=num)) : Prop :=
  ∀ X rows, predict m X = inr rows → Forall (λ r, length r = 6) rows.

(** A session: the panel run once per interaction, on the state the
    previous run left. *)
Fixpoint session {num} (runs : list (bool * Z * string)) (σ : state (num:=num)) : state :=
  match runs with
  | [] => σ
  | (predict_button, year_input, station_id) :: runs' =>
      session runs' (results_panel predict_button year_input station_id σ).2
  end.

(** *** Invariants and explicit states used in the proofs *)

(** The invariant of the loop: labels are distinct, the two columns of
    the dummies frame are there, and every cell is the specified one. *)
Definition row_ok (year_input : Z) (station_id : string) (df : DataFrame) : Prop :=
  NoDup (columns df)
  ∧ "year" ∈ columns df
  ∧ ("id_" +:+ station_id) ∈ columns df
  ∧ ∀ c v, (c, v) ∈ df → v = cell year_input station_id c.

(** The state that lines 104-110 leave: three new frames (the request,
    the zero-filled dummies, the reindexed selection), [input_df] and
    [input_encoded] rebound, everything else as it was. *)
Definition after_encode {num} (year_input : Z) (station_id : string) (cols : list string)
    (σ : state (num:=num)) : state :=
  let l1 := fresh (dom (heap σ)) in
  let h1 := <[l1 := ODataFrame [("year", VInt year_input); ("id", VStr station_id)]]> (heap σ) in
  let l2 := fresh (dom h1) in
  let h2 := <[l2 := ODataFrame (zero_fill (dummies_row year_input station_id) cols)]> h1 in
  let l3 := fresh (dom h2) in
  State (<["input_encoded" := l3]> (<["input_encoded" := l2]> (<["input_df" := l1]> (globals σ))))
        (<[l3 := ODataFrame (aligned_row year_input station_id cols)]> h2)
        (log σ).

(** ** A concrete deployment, for the examples *)

(** An estimator with six outputs that depend on the row it is given. *)
Definition demo_estimator : Estimator (num:=Z) :=
  {| predict := λ X,
       match to_numpy X with
       | Some xs => inr [(λ k, k + foldr Z.add 0 xs)%Z <$> [1; 2; 3; 4; 5; 6]%Z]
       | None => inl EstimatorError
       end |}.

Definition demo_files : artifacts :=
  {| pollution_model_pkl := demo_estimator;
     model_columns_pkl := ["year"; "id_1"; "id_2"] |}.

Definition demo_state : state := (startup (readable demo_files) empty_state).2.

(** The demo deployment after one earlier prediction. *)
Definition demo_state_later : state := (results_panel true 2030 "2" demo_state).2.

(** ** The rest of the script *)

Section Rest.

Context {num : Type}.

(** Lines 104-105: the request frame and its one-hot encoding. *)
Definition build_dummies (year_input : Z) (station_id : string) : M (num:=num) unit :=
  l ← new (ODataFrame [("year", VInt year_input); ("id", VStr station_id)]);
  assign "input_df" l;;
  data ← frame_of "input_df";
  dummies ← lift (get_dummies data ["id"]);
  l ← new (ODataFrame dummies);
  assign "input_encoded" l.

(** Lines 107-110: zero-fill, then reindex by [model_cols]. *)
Definition align : M (num:=num) unit :=
  cols ← list_of "model_cols";
  for_each cols fill_column;;
  df ← frame_of "input_encoded";
  key ← list_of "model_cols";
  selected ← lift (getitem df key);
  l ← new (ODataFrame selected);
  assign "input_encoded" l.

(** The literal texts of lines 90 and 194-196. *)
Definition model_information : string :=
  "This model predicts 6 key pollutants: O₂, NO₃, NO₂, SO₄, PO₄, and Cl⁻".

Definition model_accuracy : string := "Model Accuracy: 94.2%".

Definition last_updated : string := "Last Updated: July 2025".

Definition estimates_notice : string := "Predictions are estimates based on historical data".

(** One execution of the whole script, as Streamlit performs at every
    interaction, with the values of the three widgets: the two loads of
    lines 10-11, the [st.info] of the sidebar (line 90), the results
    panel (lines 99-160), and the three notices of the second column
    (lines 194-196).  The [st.markdown] calls are left out, as
    everywhere. *)
Definition script (d : disk (num:=num)) (predict_button : bool)
    (year_input : Z) (station_id : string) : M outcome :=
  startup d;;
  emit (st_info model_information);;
  out ← results_panel predict_button year_input station_id;
  emit (st_success_text model_accuracy);;
  emit (st_info last_updated);;
  emit (st_warning estimates_notice);;
  mret out.

(** [st.columns(n)]: the containers, numbered from 0. *)
Definition st_columns (n : nat) : list nat := seq 0 n.

(** Lines 120-127: metric number [i] of the zipped triples goes into
    container [cols[i % 3]]; [i] is the running index of [enumerate]. *)
Fixpoint place_metrics (cols : list nat) (i : nat) (items : list (string * num * string))
  : exn + list (nat * event (num:=num)) :=
  match items with
  | [] => inr []
  | pvu :: items' =>
      match cols !! (i mod 3) with
      | None => inl IndexError
      | Some c =>
          match place_metrics cols (S i) items' with
          | inl e => inl e
          | inr placed => inr ((c, st_metric pvu.1.1 pvu.1.2 pvu.2) :: placed)
          end
      end
  end.

Definition metric_grid (predicted_pollutants : list num) : exn + list (nat * event) :=
  place_metrics (st_columns 3) 0 (zip3 pollutants predicted_pollutants pollutant_units).

End Rest.

(** What a run of the panel returns and shows in a state with the
    artifacts loaded. *)
Definition panel_view {num} (files : artifacts (num:=num)) (predict_button : bool)
    (year_input : Z) (station_id : string) : (exn + outcome (num:=num)) * list event :=
  if predict_button then
    if decide (station_id = "") then (inr Warned, [st_warning station_warning])
    else prediction_events (pollution_model_pkl files)
           (aligned_row year_input station_id (model_columns_pkl files))
           year_input station_id
  else (inr Idle, [st_info configure_hint]).

(** What a run of the whole script returns and shows, as a function of
    the disk and the widget values. *)
Definition script_view {num} (d : disk (num:=num)) (predict_button : bool)
    (year_input : Z) (station_id : string) : (exn + outcome (num:=num)) * list event :=
  match pollution_model_pkl_file d, model_columns_pkl_file d with
  | inl e, _ => (inl e, [])
  | inr _, inl e => (inl e, [])
  | inr m, inr cols =>
      let view :=
        panel_view {| pollution_model_pkl := m; model_columns_pkl := cols |}
          predict_button year_input station_id in
      match view.1 with
      | inl e => (inl e, st_info model_information :: view.2)
      | inr out =>
          (inr out,
           st_info model_information :: view.2
           ++ [st_success_text model_accuracy; st_info last_updated;
               st_warning estimates_notice])
      end
  end.

(** Line 190: [station_id if station_id else 'Not specified']. *)
Definition station_label (station_id : string) : string :=
  if truthy station_id then station_id else "Not specified".

(** *** Further deployments for the examples *)

(** The demo deployment between line 105 and line 107. *)
Definition demo_dummies_state : state := (build_dummies 2025 "1" demo_state).2.

(** An estimator fitted on three targets only. *)
Definition short_estimator : Estimator (num:=Z) :=
  {| predict := λ _, inr [[1; 2; 3]%Z] |}.

Definition short_files : artifacts :=
  {| pollution_model_pkl := short_estimator;
     model_columns_pkl := ["year"; "id_1"; "id_2"] |}.

Definition short_state : state := (startup (readable short_files) empty_state).2.

(** An estimator that rejects every table. *)
Definition failing_estimator : Estimator (num:=Z) :=
  {| predict := λ _, inl EstimatorError |}.

Definition failing_files : artifacts :=
  {| pollution_model_pkl := failing_estimator;
     model_columns_pkl := ["year"; "id_1"; "id_2"] |}.

Definition failing_state : state := (startup (readable failing_files) empty_state).2.

(** Two disks on which a load fails. *)
Definition missing_model_disk : disk (num:=Z) :=
  {| pollution_model_pkl_file := inl FileNotFoundError;
     model_columns_pkl_file := inr ["year"; "id_1"; "id_2"] |}.

Definition missing_columns_disk : disk :=
  {| pollution_model_pkl_file := inr demo_estimator;
     model_columns_pkl_file := inl UnpicklingError |}.

(** A column list without [year]. *)
Definition yearless_files : artifacts :=
  {| pollution_model_pkl := demo_estimator;
     model_columns_pkl := ["id_1"; "id_2"] |}.

Definition yearless_state : state := (startup (readable yearless_files) empty_state).2.

(** * Proofs *)

Example get_dummies_station_1 :
  get_dummies [("year", VInt 2025); ("id", VStr "1")] ["id"]
  = inr [("year", VInt 2025); ("id_1", VBool true)].
Proof. reflexivity. Qed.

(** ** Data-frame lemmas *)

Section Frames.

Implicit Types (df : DataFrame) (c col : string) (v : value).

Lemma has_column_true col df : has_column col df = true ↔ col ∈ columns df.
Proof. unfold has_column. apply bool_decide_eq_true. Qed.

Lemma has_column_false col df : has_column col df = false ↔ col ∉ columns df.
Proof. unfold has_column. apply bool_decide_eq_false. Qed.

Lemma fill_step_present col df : col ∈ columns df → fill_step df col = df.
Proof. intros H. unfold fill_step. apply has_column_true in H. by rewrite H. Qed.

Lemma fill_step_absent col df :
  col ∉ columns df → fill_step df col = df ++ [(col, VInt 0)].
Proof.
  intros H. unfold fill_step, setitem. apply has_column_false in H. by rewrite H.
Qed.

Lemma columns_app df1 df2 : columns (df1 ++ df2) = columns df1 ++ columns df2.
Proof. unfold columns. apply fmap_app. Qed.

Lemma elem_of_columns c v df : (c, v) ∈ df → c ∈ columns df.
Proof. intros H. unfold columns. apply list_elem_of_fmap. by exists (c, v). Qed.

Lemma columns_cons c v df : columns ((c, v) :: df) = c :: columns df.
Proof. reflexivity. Qed.

Lemma filter_label_absent df c :
  c ∉ columns df → filter (λ cv, cv.1 = c) df = [].
Proof.
  induction df as [|[c' v'] df IH]; [done|]. rewrite columns_cons. intros Hc.
  apply not_elem_of_cons in Hc as [Hne Hc].
  rewrite filter_cons_False by (simpl; congruence). by apply IH.
Qed.

(** A column label that occurs once selects exactly its column. *)
Lemma filter_label_unique df c v :
  NoDup (columns df) → (c, v) ∈ df → filter (λ cv, cv.1 = c) df = [(c, v)].
Proof.
  induction df as [|[c' v'] df IH]; intros Hnd Hin.
  - by apply elem_of_nil in Hin.
  - rewrite columns_cons in Hnd. apply NoDup_cons in Hnd as [Hc' Hnd].
    apply elem_of_cons in Hin as [Heq | Hin].
    + inversion Heq; subst c' v'.
      rewrite filter_cons_True by done. f_equal. by apply filter_label_absent.
    + assert (c' ≠ c) as Hne.
      { intros ->. apply Hc'. by apply (elem_of_columns c v). }
      rewrite filter_cons_False by done. by apply IH.
Qed.

(** Selecting labels that each name one column picks those columns in
    the order of the key. *)
Lemma getitem_unique df (f : string → value) (key : list string) :
  NoDup (columns df) →
  (∀ c, c ∈ key → (c, f c) ∈ df) →
  getitem df key = inr ((λ c, (c, f c)) <$> key).
Proof.
  intros Hnd. induction key as [|c key IH]; intros Hin; [done|].
  simpl. rewrite (filter_label_unique df c (f c)); [|done|apply Hin; left].
  rewrite IH; [done|]. intros c' Hc'. apply Hin. by right.
Qed.

Lemma columns_elem_of c df : c ∈ columns df → ∃ v, (c, v) ∈ df.
Proof.
  unfold columns. intros ([c' v] & -> & Hin)%list_elem_of_fmap. by exists v.
Qed.

(** *** The zero-filling loop *)

Lemma fill_step_keeps c col df : c ∈ columns df → c ∈ columns (fill_step df col).
Proof.
  intros Hc. destruct (decide (col ∈ columns df)) as [Hin | Hout].
  - by rewrite fill_step_present.
  - rewrite fill_step_absent, columns_app by done. apply elem_of_app. by left.
Qed.

Lemma fill_step_adds col df : col ∈ columns (fill_step df col).
Proof.
  destruct (decide (col ∈ columns df)) as [Hin | Hout].
  - by rewrite fill_step_present.
  - rewrite fill_step_absent, columns_app by done. apply elem_of_app. right.
    apply list_elem_of_singleton. reflexivity.
Qed.

Lemma zero_fill_cons col cols df :
  zero_fill df (col :: cols) = zero_fill (fill_step df col) cols.
Proof. reflexivity. Qed.

Lemma zero_fill_keeps c cols df : c ∈ columns df → c ∈ columns (zero_fill df cols).
Proof.
  revert df. induction cols as [|col cols IH]; intros df Hc; [done|].
  rewrite zero_fill_cons. apply IH. by apply fill_step_keeps.
Qed.

Lemma zero_fill_covers c cols df : c ∈ cols → c ∈ columns (zero_fill df cols).
Proof.
  revert df. induction cols as [|col cols IH]; intros df Hc.
  - by apply elem_of_nil in Hc.
  - rewrite zero_fill_cons. apply elem_of_cons in Hc as [-> | Hc].
    + apply zero_fill_keeps, fill_step_adds.
    + by apply IH.
Qed.

Lemma cell_year y s : cell y s "year" = VInt y.
Proof. reflexivity. Qed.

Lemma cell_own_dummy y s : cell y s ("id_" +:+ s) = VBool true.
Proof. unfold cell. rewrite decide_False by done. by rewrite decide_True. Qed.

Lemma cell_other y s c : c ≠ "year" → c ≠ "id_" +:+ s → cell y s c = VInt 0.
Proof. intros H1 H2. unfold cell. by rewrite !decide_False. Qed.

Lemma dummies_row_ok y s : row_ok y s (dummies_row y s).
Proof.
  unfold row_ok, dummies_row. split_and!.
  - cbn. apply NoDup_cons. split; [|apply NoDup_singleton].
    by intros ?%list_elem_of_singleton.
  - cbn. apply elem_of_cons. by left.
  - cbn. apply elem_of_cons. right. by apply list_elem_of_singleton.
  - intros c v Hin. apply elem_of_cons in Hin as [Heq | Hin].
    + by inversion Heq.
    + apply list_elem_of_singleton in Hin. inversion Hin. symmetry. apply cell_own_dummy.
Qed.

Lemma fill_step_ok y s col df : row_ok y s df → row_ok y s (fill_step df col).
Proof.
  intros (Hnd & Hyear & Hid & Hcell).
  destruct (decide (col ∈ columns df)) as [Hin | Hout].
  { by rewrite fill_step_present. }
  rewrite fill_step_absent by done. unfold row_ok. rewrite columns_app. split_and!.
  - apply NoDup_app. split_and!; [done| |apply NoDup_singleton].
    intros c Hc ->%list_elem_of_singleton. done.
  - apply elem_of_app. by left.
  - apply elem_of_app. by left.
  - intros c v [Hin | Hin%list_elem_of_singleton]%elem_of_app; [by apply Hcell|].
    inversion Hin; subst c v. symmetry. apply cell_other; intros ->; done.
Qed.

Lemma zero_fill_ok y s cols df : row_ok y s df → row_ok y s (zero_fill df cols).
Proof.
  revert df. induction cols as [|col cols IH]; intros df Hok; [done|].
  rewrite zero_fill_cons. apply IH. by apply fill_step_ok.
Qed.

(** Lines 104-110 on the frame alone: the dummies frame, zero-filled
    and reindexed by [model_cols], is the specification's vector. *)
Lemma getitem_zero_fill y s (model_cols : list string) :
  getitem (zero_fill (dummies_row y s) model_cols) model_cols
  = inr (aligned_row y s model_cols).
Proof.
  pose proof (zero_fill_ok y s model_cols _ (dummies_row_ok y s)) as (Hnd & _ & _ & Hcell).
  apply getitem_unique; [done|]. intros c Hc.
  destruct (columns_elem_of c _ (zero_fill_covers c model_cols (dummies_row y s) Hc))
    as [v Hv].
  by rewrite <- (Hcell c v Hv).
Qed.

(** *** The specification's vector *)

Lemma aligned_row_columns y s (cols : list string) : columns (aligned_row y s cols) = cols.
Proof.
  unfold columns, aligned_row. rewrite <- list_fmap_compose.
  induction cols as [|c cols IH]; [done|]. cbn. by rewrite IH.
Qed.

Lemma aligned_row_length y s (cols : list string) :
  length (aligned_row y s cols) = length cols.
Proof. unfold aligned_row. apply length_fmap. Qed.

Lemma aligned_row_lookup y s (cols : list string) i :
  aligned_row y s cols !! i = (λ c, (c, cell y s c)) <$> cols !! i.
Proof. unfold aligned_row. apply list_lookup_fmap. Qed.

Lemma aligned_row_lookup_Some y s (cols : list string) i c v :
  aligned_row y s cols !! i = Some (c, v) ↔ cols !! i = Some c ∧ v = cell y s c.
Proof.
  rewrite aligned_row_lookup. destruct (cols !! i) as [c'|]; cbn;
    [|split; [done | by intros [? _]]].
  split; [by intros [= -> ->] | by intros [[= ->] ->]].
Qed.

End Frames.

(** ** Running the script's steps *)

Section Runs.

Context {num : Type}.

Local Abbreviation state := (state (num:=num)).
Local Abbreviation obj := (obj (num:=num)).
Local Abbreviation event := (event (num:=num)).

Implicit Types (σ : state) (l : loc) (o : obj) (df : DataFrame) (name col : string).
Implicit Types (files : artifacts (num:=num)).

Lemma bind_inr {A B} (m : M (num:=num) A) (k : A → M B) σ a σ' :
  m σ = (inr a, σ') → (m ≫= k) σ = k a σ'.
Proof. intros H. unfold mbind, M_bind. by rewrite H. Qed.

Lemma state_eta σ : State (globals σ) (heap σ) (log σ) = σ.
Proof. by destruct σ. Qed.

(** Run the first command of a sequence: [step] when it computes,
    [step_by tac] when [tac] proves what it returns. *)
Ltac step := erewrite bind_inr by reflexivity.
Ltac step_by tac := erewrite bind_inr; [|tac].

(** *** Allocation never reuses a location *)

Lemma fresh_unused (h : gmap loc obj) : h !! fresh (dom h) = None.
Proof. apply not_elem_of_dom, is_fresh. Qed.

Lemma fresh_ne (h : gmap loc obj) l o : h !! l = Some o → fresh (dom h) ≠ l.
Proof. intros H Heq. rewrite <- Heq, fresh_unused in H. discriminate. Qed.

Lemma lookup_insert_fresh (h : gmap loc obj) l o o' :
  h !! l = Some o → <[fresh (dom h) := o']> h !! l = Some o.
Proof. intros H. rewrite lookup_insert_ne; [done|]. by eapply fresh_ne. Qed.

(** *** Reading through a global name *)

Lemma frame_of_run name σ l df :
  globals σ !! name = Some l → heap σ !! l = Some (ODataFrame df) →
  frame_of name σ = (inr df, σ).
Proof.
  intros Hg Hh. unfold frame_of, mbind, M_bind, lookup_name, load.
  by rewrite Hg, Hh.
Qed.

Lemma list_of_run name σ l xs :
  globals σ !! name = Some l → heap σ !! l = Some (OList xs) →
  list_of name σ = (inr xs, σ).
Proof.
  intros Hg Hh. unfold list_of, mbind, M_bind, lookup_name, load.
  by rewrite Hg, Hh.
Qed.

Lemma estimator_of_run name σ l m :
  globals σ !! name = Some l → heap σ !! l = Some (OEstimator m) →
  estimator_of name σ = (inr m, σ).
Proof.
  intros Hg Hh. unfold estimator_of, mbind, M_bind, lookup_name, load.
  by rewrite Hg, Hh.
Qed.

(** *** The zero-filling loop writes the frame of [input_encoded] only *)

Lemma fill_column_run col σ l df :
  globals σ !! "input_encoded" = Some l → heap σ !! l = Some (ODataFrame df) →
  fill_column col σ
  = (inr (), State (globals σ) (<[l := ODataFrame (fill_step df col)]> (heap σ)) (log σ)).
Proof.
  intros Hg Hh. unfold fill_column.
  rewrite (bind_inr _ _ _ _ _ (frame_of_run _ _ _ _ Hg Hh)).
  unfold fill_step. destruct (has_column col df); simpl.
  - by rewrite insert_id, state_eta.
  - unfold mbind, M_bind, lookup_name, store. by rewrite Hg.
Qed.

Lemma for_each_fill_run cols σ l df :
  globals σ !! "input_encoded" = Some l → heap σ !! l = Some (ODataFrame df) →
  for_each cols fill_column σ
  = (inr (), State (globals σ) (<[l := ODataFrame (zero_fill df cols)]> (heap σ)) (log σ)).
Proof.
  revert σ df. induction cols as [|col cols IH]; intros σ df Hg Hh.
  - cbn. by rewrite insert_id, state_eta.
  - cbn [for_each]. rewrite (bind_inr _ _ _ _ _ (fill_column_run col _ _ _ Hg Hh)).
    rewrite (IH _ (fill_step df col)); cbn.
    + by rewrite insert_insert_eq.
    + done.
    + apply lookup_insert_eq.
Qed.

(** *** The encoding step *)

Lemma get_dummies_request year_input station_id :
  get_dummies [("year", VInt year_input); ("id", VStr station_id)] ["id"]
  = inr (dummies_row year_input station_id).
Proof. reflexivity. Qed.

Lemma encode_run year_input station_id σ lc cols :
  globals σ !! "model_cols" = Some lc → heap σ !! lc = Some (OList cols) →
  encode year_input station_id σ = (inr (), after_encode year_input station_id cols σ).
Proof.
  intros Hg Hh. unfold encode, after_encode.
  set (l1 := fresh (dom (heap σ))).
  set (h1 := <[l1 := _]> (heap σ)).
  set (l2 := fresh (dom h1)).
  assert (h1 !! lc = Some (OList cols)) as Hh1 by by apply lookup_insert_fresh.
  (* input_df = pd.DataFrame(...) *)
  step. step.
  (* input_encoded = pd.get_dummies(input_df, columns=['id']) *)
  step_by ltac:(apply (frame_of_run _ _ l1); cbn; apply lookup_insert_eq).
  step_by ltac:(unfold lift; by rewrite get_dummies_request).
  step. step.
  (* for col in model_cols: ... *)
  step_by ltac:(apply (list_of_run _ _ lc); cbn;
                [by rewrite !lookup_insert_ne by done | by apply lookup_insert_fresh]).
  step_by ltac:(apply (for_each_fill_run _ _ l2); cbn; apply lookup_insert_eq).
  cbn [globals heap log]. rewrite insert_insert_eq.
  set (h2 := <[l2 := _]> h1).
  assert (h2 !! lc = Some (OList cols)) as Hh2 by by apply lookup_insert_fresh.
  (* input_encoded = input_encoded[model_cols] *)
  step_by ltac:(apply (frame_of_run _ _ l2); cbn; apply lookup_insert_eq).
  step_by ltac:(apply (list_of_run _ _ lc); cbn;
                [by rewrite !lookup_insert_ne by done | done]).
  step_by ltac:(unfold lift; by rewrite getitem_zero_fill).
  step. reflexivity.
Qed.

Lemma list_at_inv name σ xs :
  list_at name σ = Some xs ↔
  ∃ l, globals σ !! name = Some l ∧ heap σ !! l = Some (OList xs).
Proof.
  unfold list_at. split.
  - destruct (globals σ !! name) as [l|]; [|done].
    destruct (heap σ !! l) as [[]|] eqn:Hl; intros [= <-]. by exists l.
  - intros (l & -> & ->). done.
Qed.

Lemma estimator_at_inv name σ m :
  estimator_at name σ = Some m ↔
  ∃ l, globals σ !! name = Some l ∧ heap σ !! l = Some (OEstimator m).
Proof.
  unfold estimator_at. split.
  - destruct (globals σ !! name) as [l|]; [|done].
    destruct (heap σ !! l) as [[]|] eqn:Hl; intros [= <-]. by exists l.
  - intros (l & -> & ->). done.
Qed.

(** Encoding allocates; the objects that were there stay as they were. *)
Lemma after_encode_heap y s cols σ l o :
  heap σ !! l = Some o → heap (after_encode y s cols σ) !! l = Some o.
Proof.
  intros H. unfold after_encode. cbn [heap].
  by do 3 apply lookup_insert_fresh.
Qed.

Lemma after_encode_globals y s cols σ name :
  name ≠ "input_df" → name ≠ "input_encoded" →
  globals (after_encode y s cols σ) !! name = globals σ !! name.
Proof.
  intros H1 H2. unfold after_encode. cbn [globals]. by rewrite !lookup_insert_ne.
Qed.

Lemma after_encode_frame y s cols σ :
  frame_at "input_encoded" (after_encode y s cols σ) = Some (aligned_row y s cols).
Proof.
  unfold frame_at, after_encode. cbn [globals heap]. by rewrite !lookup_insert_eq.
Qed.

Lemma after_encode_loaded files y s cols σ :
  loaded files σ → loaded files (after_encode y s cols σ).
Proof.
  intros [(lm & Hgm & Hhm)%estimator_at_inv (lc & Hgc & Hhc)%list_at_inv]. split.
  - apply estimator_at_inv. exists lm.
    rewrite after_encode_globals by done. eauto using after_encode_heap.
  - apply list_at_inv. exists lc.
    rewrite after_encode_globals by done. eauto using after_encode_heap.
Qed.

(** *** Prediction and display only add to the log *)

Lemma emit_run (e : event) σ :
  emit e σ = (inr (), State (globals σ) (heap σ) (log σ ++ [e])).
Proof. reflexivity. Qed.

Lemma for_each_emit_run {A} (f : A → event) (xs : list A) σ :
  for_each xs (λ x, emit (f x)) σ
  = (inr (), State (globals σ) (heap σ) (log σ ++ (f <$> xs))).
Proof.
  revert σ. induction xs as [|x xs IH]; intros σ.
  - cbn. by rewrite app_nil_r, state_eta.
  - cbn [for_each]. erewrite bind_inr by reflexivity. rewrite IH. cbn.
    by rewrite <- app_assoc.
Qed.

Lemma frame_at_inv name σ X :
  frame_at name σ = Some X ↔
  ∃ l, globals σ !! name = Some l ∧ heap σ !! l = Some (ODataFrame X).
Proof.
  unfold frame_at. split.
  - destruct (globals σ !! name) as [l|]; [|done].
    destruct (heap σ !! l) as [[]|] eqn:Hl; intros [= <-]. by exists l.
  - intros (l & -> & ->). done.
Qed.

Lemma predict_step_run m X σ :
  estimator_at "model" σ = Some m → frame_at "input_encoded" σ = Some X →
  predict_step σ
  = (match predict m X with
     | inl e => inl e
     | inr [] => inl IndexError
     | inr (r :: _) => inr r
     end,
     State (globals σ) (heap σ) (log σ ++ [model_predict X])).
Proof.
  intros (lm & Hgm & Hhm)%estimator_at_inv (lx & Hgx & Hhx)%frame_at_inv.
  unfold predict_step, mbind, M_bind.
  rewrite (estimator_of_run _ _ _ _ Hgm Hhm), (frame_of_run _ _ _ _ Hgx Hhx).
  rewrite emit_run. unfold lift. by destruct (predict m X) as [e|[|r rows]].
Qed.

Lemma predict_and_show_run m X year_input station_id σ :
  estimator_at "model" σ = Some m → frame_at "input_encoded" σ = Some X →
  predict_and_show year_input station_id σ
  = ((prediction_events m X year_input station_id).1,
     State (globals σ) (heap σ)
           (log σ ++ (prediction_events m X year_input station_id).2)).
Proof.
  intros (lm & Hgm & Hhm)%estimator_at_inv (lx & Hgx & Hhx)%frame_at_inv.
  unfold predict_and_show, predict_step, prediction_events, show_results, mbind, M_bind.
  rewrite (estimator_of_run _ _ _ _ Hgm Hhm), (frame_of_run _ _ _ _ Hgx Hhx).
  rewrite emit_run. unfold lift.
  destruct (predict m X) as [e|[|r rows]]; [done..|].
  rewrite emit_run, for_each_emit_run. cbn [globals heap log]. fold (metrics r).
  destruct (chart_frame pollutants r) as [e|chart_data]; rewrite ?emit_run; cbn.
  - by rewrite <- !app_assoc.
  - by rewrite <- !app_assoc.
Qed.

(** *** One run of the results panel *)

Lemma truthy_true s : truthy s = true ↔ s ≠ "".
Proof. by destruct s. Qed.

(** Button not pressed: the hint is shown, nothing else happens. *)
Lemma panel_idle_run y s σ :
  results_panel false y s σ
  = (inr Idle, State (globals σ) (heap σ) (log σ ++ [st_info configure_hint])).
Proof. reflexivity. Qed.

(** Empty station id: the warning is shown, nothing else happens. *)
Lemma panel_warned_run y σ :
  results_panel true y "" σ
  = (inr Warned,
     State (globals σ) (heap σ) (log σ ++ [st_warning station_warning])).
Proof. reflexivity. Qed.

(** Any other station id: encoding, then prediction and display on the
    aligned row. *)
Lemma panel_run files y s σ :
  loaded files σ → s ≠ "" →
  results_panel true y s σ
  = let σe := after_encode y s (model_columns_pkl files) σ in
    let re := prediction_events (pollution_model_pkl files)
                (aligned_row y s (model_columns_pkl files)) y s in
    (re.1, State (globals σe) (heap σe) (log σ ++ re.2)).
Proof.
  intros Hl Hs. pose proof Hl as [_ (lc & Hgc & Hhc)%list_at_inv].
  unfold results_panel. apply truthy_true in Hs. rewrite Hs. cbn [negb].
  rewrite (bind_inr _ _ _ _ _ (encode_run y s _ _ _ Hgc Hhc)).
  eapply after_encode_loaded in Hl as [Hm _].
  by rewrite (predict_and_show_run _ _ _ _ _ Hm (after_encode_frame _ _ _ _)).
Qed.

Lemma shown_app σ g h evs : shown σ (State g h (log σ ++ evs)) = evs.
Proof. unfold shown. cbn [log]. apply drop_app_length. Qed.

Lemma predict_calls_metrics (r : list num) : predict_calls (metrics r) = [].
Proof.
  unfold metrics, predict_calls.
  by induction (zip3 pollutants r pollutant_units) as [|x xs IH].
Qed.

Lemma predict_calls_app (evs1 evs2 : list event) :
  predict_calls (evs1 ++ evs2) = predict_calls evs1 ++ predict_calls evs2.
Proof. unfold predict_calls. apply omap_app. Qed.

Lemma predict_calls_predict X (evs : list event) :
  predict_calls (model_predict X :: evs) = X :: predict_calls evs.
Proof. reflexivity. Qed.

Lemma predict_calls_success s y (evs : list event) :
  predict_calls (st_success s y :: evs) = predict_calls evs.
Proof. reflexivity. Qed.

(** Whatever the estimator answers, it is called once, on [X]. *)
Lemma predict_calls_events (m : Estimator (num:=num)) X y s :
  predict_calls (prediction_events m X y s).2 = [X].
Proof.
  unfold prediction_events.
  destruct (predict m X) as [e|[|r rows]]; [done..|].
  destruct (chart_frame pollutants r) as [e|chart_data]; cbn [snd].
  - by rewrite predict_calls_predict, predict_calls_success, predict_calls_metrics.
  - rewrite predict_calls_predict, predict_calls_success, predict_calls_app.
    by rewrite predict_calls_metrics.
Qed.

Lemma prediction_events_outcome (m : Estimator (num:=num)) X y s :
  (∃ e, (prediction_events m X y s).1 = inl e)
  ∨ (∃ r, (prediction_events m X y s).1 = inr (Predicted r)).
Proof.
  unfold prediction_events.
  destruct (predict m X) as [e|[|r rows]]; [left; by eexists..|].
  destruct (chart_frame pollutants r); [left|right]; by eexists.
Qed.

Lemma panel_not_warned files y s σ :
  loaded files σ → s ≠ "" → (results_panel true y s σ).1 ≠ inr Warned.
Proof.
  intros Hl Hs. rewrite (panel_run files) by done. cbn [fst].
  by destruct (prediction_events_outcome (pollution_model_pkl files)
                 (aligned_row y s (model_columns_pkl files)) y s) as [[e ->]|[r ->]].
Qed.

Lemma predict_and_show_outcome y s σ :
  (∃ e, (predict_and_show y s σ).1 = inl e)
  ∨ (∃ r, (predict_and_show y s σ).1 = inr (Predicted r)).
Proof.
  unfold predict_and_show, mbind, M_bind.
  destruct (predict_step σ) as [[e|r] σ1]; [left; by eexists|].
  destruct (show_results y s r σ1) as [[e|[]] σ2]; [left|right]; by eexists.
Qed.

(** With a non-empty station id the panel never answers [Warned], in
    any state. *)
Lemma panel_truthy_outcome y s σ :
  s ≠ "" → (results_panel true y s σ).1 ≠ inr Warned.
Proof.
  intros Hs%truthy_true. unfold results_panel. rewrite Hs. cbn [negb].
  unfold mbind, M_bind. destruct (encode y s σ) as [[e|[]] σ1]; [done|].
  by destruct (predict_and_show_outcome y s σ1) as [[e ->]|[r ->]].
Qed.

Lemma prediction_events_no_warning (m : Estimator (num:=num)) X y s body :
  st_warning body ∉ (prediction_events m X y s).2.
Proof.
  assert (∀ r : list num, st_warning body ∉ metrics r) as Hmetrics.
  { intros r (pvu & [=] & _)%list_elem_of_fmap. }
  unfold prediction_events.
  destruct (predict m X) as [e|[|r rows]];
    [by intros [=]%list_elem_of_singleton..|].
  destruct (chart_frame pollutants r) as [e|chart_data]; cbn [snd];
    rewrite !not_elem_of_cons, ?not_elem_of_app; split_and!; try done.
  by intros [=]%list_elem_of_singleton.
Qed.

(** What any run of the panel leaves alone: the bindings of [model] and
    [model_cols] and every object that existed before the run. *)
Lemma panel_preserves files pb y s σ :
  loaded files σ →
  globals (results_panel pb y s σ).2 !! "model" = globals σ !! "model"
  ∧ globals (results_panel pb y s σ).2 !! "model_cols" = globals σ !! "model_cols"
  ∧ (∀ l o, heap σ !! l = Some o → heap (results_panel pb y s σ).2 !! l = Some o).
Proof.
  intros Hl. destruct pb.
  - destruct (decide (s = "")) as [->|Hs].
    + by rewrite panel_warned_run.
    + rewrite (panel_run files) by done. cbn [snd globals heap].
      rewrite !after_encode_globals by done. split_and!; [done..|].
      intros l o. apply after_encode_heap.
  - by rewrite panel_idle_run.
Qed.

Lemma loaded_preserved files σ σ' :
  loaded files σ →
  globals σ' !! "model" = globals σ !! "model" →
  globals σ' !! "model_cols" = globals σ !! "model_cols" →
  (∀ l o, heap σ !! l = Some o → heap σ' !! l = Some o) →
  loaded files σ'.
Proof.
  intros [(lm & Hgm & Hhm)%estimator_at_inv (lc & Hgc & Hhc)%list_at_inv] Hm Hc Hh.
  split.
  - apply estimator_at_inv. exists lm. rewrite Hm. eauto.
  - apply list_at_inv. exists lc. rewrite Hc. eauto.
Qed.

Lemma panel_loaded files pb y s σ :
  loaded files σ → loaded files (results_panel pb y s σ).2.
Proof.
  intros Hl. destruct (panel_preserves files pb y s σ Hl) as (Hm & Hc & Hh).
  by apply (loaded_preserved files σ).
Qed.

(** Lines 10-11 leave the two names on the two artifacts. *)
Lemma startup_loaded files : loaded files (startup (readable files) empty_state).2.
Proof. split; reflexivity. Qed.

(** And so they stay, whatever the user does afterwards. *)
Lemma session_loaded files runs σ : loaded files σ → loaded files (session runs σ).
Proof.
  revert σ. induction runs as [|[[pb y] s] runs IH]; intros σ Hl; [done|].
  cbn [session]. by apply IH, panel_loaded.
Qed.

(** The aligned row is what encoding leaves under [input_encoded] and
    what the estimator is called on. *)
Lemma panel_encoded files y s σ :
  loaded files σ → s ≠ "" →
  (encode y s σ).1 = inr ()
  ∧ frame_at "input_encoded" (encode y s σ).2
    = Some (aligned_row y s (model_columns_pkl files))
  ∧ predict_calls (shown σ (results_panel true y s σ).2)
    = [aligned_row y s (model_columns_pkl files)].
Proof.
  intros Hl Hs. pose proof Hl as [_ (lc & Hgc & Hhc)%list_at_inv].
  rewrite (encode_run y s _ _ _ Hgc Hhc), (panel_run files) by done.
  cbn [fst snd]. split_and!; [done|apply after_encode_frame|].
  by rewrite shown_app, predict_calls_events.
Qed.

End Runs.

Example demo_state_loaded : loaded demo_files demo_state.
Proof. split; reflexivity. Qed.

Example demo_known_station :
  (results_panel true 2025 "1" demo_state).1
  = inr (Predicted [2027; 2028; 2029; 2030; 2031; 2032]%Z).
Proof. reflexivity. Qed.

Example demo_empty_station : (results_panel true 2025 "" demo_state).1 = inr Warned.
Proof. reflexivity. Qed.

(** ** The encoding contract *)

Section Encoding.

Context {num : Type}.

Implicit Types (files : artifacts (num:=num)) (σ : state (num:=num)).
Implicit Types (year_input : Z) (station_id : string).

(** C1 (column alignment).  For a request with a non-empty station id
    and any list of model columns, encoding succeeds and the frame it
    leaves in [input_encoded], which is the table [model.predict] is
    called on, has the labels of [model_cols], in the same order and
    number: position by position the label is that of [model_cols], no
    other label occurs, and a name that occurs once in [model_cols]
    labels one column. *)
Theorem encode_column_alignment files σ year_input station_id :
  loaded files σ →
  station_id ≠ "" →
  ∃ X : DataFrame,
    (encode year_input station_id σ).1 = inr ()
    ∧ frame_at "input_encoded" (encode year_input station_id σ).2 = Some X
    ∧ predict_calls (shown σ (results_panel true year_input station_id σ).2) = [X]
    ∧ columns X = model_columns_pkl files
    ∧ length X = length (model_columns_pkl files)
    ∧ (∀ i col, model_columns_pkl files !! i = Some col → ∃ v, X !! i = Some (col, v))
    ∧ (∀ col, col ∈ columns X → col ∈ model_columns_pkl files)
    ∧ (∀ col, length (filter (λ c, c = col) (columns X))
              = length (filter (λ c, c = col) (model_columns_pkl files))).
Proof.
  intros Hl Hs. destruct (panel_encoded files year_input station_id σ Hl Hs) as (He & Hf & Hp).
  eexists. split_and!; [done..| | | | |].
  - apply aligned_row_columns.
  - apply aligned_row_length.
  - intros i col Hi. eexists. apply aligned_row_lookup_Some. eauto.
  - by rewrite aligned_row_columns.
  - by rewrite aligned_row_columns.
Qed.

(** C2 (end-to-end example).  With [model_cols = ['year', 'id_1',
    'id_2']], the request (2025, '1') is encoded as the row 2025, True, 0,
    which reads [2025, 1, 0] as numbers, and the request (2025, '99') as
    [2025, 0, 0]. *)
Theorem encode_end_to_end_example files σ :
  loaded files σ →
  model_columns_pkl files = ["year"; "id_1"; "id_2"] →
  frame_at "input_encoded" (encode 2025 "1" σ).2
  = Some [("year", VInt 2025); ("id_1", VBool true); ("id_2", VInt 0)]
  ∧ (frame_at "input_encoded" (encode 2025 "1" σ).2 ≫= to_numpy) = Some [2025; 1; 0]%Z
  ∧ frame_at "input_encoded" (encode 2025 "99" σ).2
    = Some [("year", VInt 2025); ("id_1", VInt 0); ("id_2", VInt 0)]
  ∧ (frame_at "input_encoded" (encode 2025 "99" σ).2 ≫= to_numpy) = Some [2025; 0; 0]%Z.
Proof.
  intros Hl Hcols.
  destruct (panel_encoded files 2025 "1" σ Hl) as (_ & -> & _); [done|].
  destruct (panel_encoded files 2025 "99" σ Hl) as (_ & -> & _); [done|].
  rewrite Hcols. by split_and!.
Qed.

(** C3 (unknown station).  If the dummy label [id_<station_id>] of a
    non-empty station id is not among the model columns, encoding still
    succeeds; every [year] column of the row holds the year and every
    other column, so every indicator column, holds 0. *)
Theorem encode_unknown_station files σ year_input station_id :
  loaded files σ →
  station_id ≠ "" →
  ("id_" +:+ station_id) ∉ model_columns_pkl files →
  ∃ X : DataFrame,
    (encode year_input station_id σ).1 = inr ()
    ∧ frame_at "input_encoded" (encode year_input station_id σ).2 = Some X
    ∧ predict_calls (shown σ (results_panel true year_input station_id σ).2) = [X]
    ∧ (∀ i, model_columns_pkl files !! i = Some "year" → X !! i = Some ("year", VInt year_input))
    ∧ (∀ i col v, X !! i = Some (col, v) →
         v = if decide (col = "year") then VInt year_input else VInt 0).
Proof.
  intros Hl Hs Hunknown.
  destruct (panel_encoded files year_input station_id σ Hl Hs) as (He & Hf & Hp).
  eexists. split_and!; [done..| |].
  - intros i Hi. apply aligned_row_lookup_Some. by rewrite cell_year.
  - intros i col v [Hi ->]%aligned_row_lookup_Some. unfold cell.
    destruct (decide (col = "year")); [done|].
    rewrite decide_False; [done|]. intros ->. apply Hunknown.
    by apply list_elem_of_lookup_2 in Hi.
Qed.

(** C4 (known station).  If [id_<station_id>] is among the model
    columns, the row has that column, it holds [True] (the number 1),
    and every other column whose label starts with [id_] holds 0. *)
Theorem encode_known_station files σ year_input station_id :
  loaded files σ →
  station_id ≠ "" →
  ("id_" +:+ station_id) ∈ model_columns_pkl files →
  ∃ X : DataFrame,
    (encode year_input station_id σ).1 = inr ()
    ∧ frame_at "input_encoded" (encode year_input station_id σ).2 = Some X
    ∧ predict_calls (shown σ (results_panel true year_input station_id σ).2) = [X]
    ∧ (∃ i, X !! i = Some ("id_" +:+ station_id, VBool true))
    ∧ (∀ i col v, X !! i = Some (col, v) → String.prefix "id_" col = true →
         numeric v = Some (if decide (col = "id_" +:+ station_id) then 1 else 0)%Z).
Proof.
  intros Hl Hs Hknown.
  destruct (panel_encoded files year_input station_id σ Hl Hs) as (He & Hf & Hp).
  eexists. split_and!; [done..| |].
  - apply list_elem_of_lookup_1 in Hknown as [i Hi]. exists i.
    apply aligned_row_lookup_Some. by rewrite cell_own_dummy.
  - intros i col v [Hi ->]%aligned_row_lookup_Some Hpre. unfold cell.
    destruct (decide (col = "year")) as [->|_]; [discriminate|].
    by destruct (decide (col = "id_" +:+ station_id)).
Qed.

(** C8 (year pass-through).  For every integer year, inside or outside
    2000..2100, a button press with a non-empty station id is not
    rejected, and the row handed to the estimator holds that very
    integer in each [year] column. *)
Theorem encode_year_unchanged files σ year_input station_id :
  loaded files σ →
  station_id ≠ "" →
  ∃ X : DataFrame,
    (encode year_input station_id σ).1 = inr ()
    ∧ frame_at "input_encoded" (encode year_input station_id σ).2 = Some X
    ∧ predict_calls (shown σ (results_panel true year_input station_id σ).2) = [X]
    ∧ (∀ i, model_columns_pkl files !! i = Some "year" → X !! i = Some ("year", VInt year_input))
    ∧ (∀ i v, X !! i = Some ("year", v) → v = VInt year_input)
    ∧ (results_panel true year_input station_id σ).1 ≠ inr Warned.
Proof.
  intros Hl Hs.
  destruct (panel_encoded files year_input station_id σ Hl Hs) as (He & Hf & Hp).
  eexists. split_and!; [done..| | |].
  - intros i Hi. apply aligned_row_lookup_Some. by rewrite cell_year.
  - by intros i v [_ ->]%aligned_row_lookup_Some.
  - by apply (panel_not_warned files).
Qed.

End Encoding.

Lemma encode_column_alignment_witness :
  loaded demo_files demo_state ∧ "1" ≠ "" ∧
  ∃ X : DataFrame,
    (encode 2025 "1" demo_state).1 = inr ()
    ∧ frame_at "input_encoded" (encode 2025 "1" demo_state).2 = Some X
    ∧ predict_calls (shown demo_state (results_panel true 2025 "1" demo_state).2) = [X]
    ∧ columns X = model_columns_pkl demo_files
    ∧ length X = length (model_columns_pkl demo_files)
    ∧ (∀ i col, model_columns_pkl demo_files !! i = Some col → ∃ v, X !! i = Some (col, v))
    ∧ (∀ col, col ∈ columns X → col ∈ model_columns_pkl demo_files)
    ∧ (∀ col, length (filter (λ c, c = col) (columns X))
              = length (filter (λ c, c = col) (model_columns_pkl demo_files))).
Proof.
  split; [split; reflexivity|]. split; [discriminate|].
  apply (encode_column_alignment demo_files demo_state 2025 "1");
    [split; reflexivity | discriminate].
Defined.

Lemma encode_end_to_end_example_witness :
  loaded demo_files demo_state
  ∧ model_columns_pkl demo_files = ["year"; "id_1"; "id_2"]
  ∧ (frame_at "input_encoded" (encode 2025 "1" demo_state).2 ≫= to_numpy) = Some [2025; 1; 0]%Z
  ∧ (frame_at "input_encoded" (encode 2025 "99" demo_state).2 ≫= to_numpy) = Some [2025; 0; 0]%Z.
Proof.
  split; [split; reflexivity|]. split; [reflexivity|].
  destruct (encode_end_to_end_example demo_files demo_state) as (_ & H1 & _ & H2);
    [split; reflexivity | reflexivity | by split].
Defined.

Lemma encode_unknown_station_witness :
  loaded demo_files demo_state ∧ "99" ≠ ""
  ∧ (("id_" +:+ "99") ∉ model_columns_pkl demo_files)
  ∧ ∃ X : DataFrame,
      (encode 2025 "99" demo_state).1 = inr ()
      ∧ frame_at "input_encoded" (encode 2025 "99" demo_state).2 = Some X
      ∧ predict_calls (shown demo_state (results_panel true 2025 "99" demo_state).2) = [X]
      ∧ (∀ i, model_columns_pkl demo_files !! i = Some "year" → X !! i = Some ("year", VInt 2025))
      ∧ (∀ i col v, X !! i = Some (col, v) →
           v = if decide (col = "year") then VInt 2025 else VInt 0).
Proof.
  assert (("id_" +:+ "99") ∉ model_columns_pkl demo_files) as Hunknown.
  { compute_done. }
  split; [split; reflexivity|]. split; [discriminate|]. split; [exact Hunknown|].
  apply (encode_unknown_station demo_files demo_state 2025 "99");
    [split; reflexivity | discriminate | exact Hunknown].
Defined.

Lemma encode_known_station_witness :
  loaded demo_files demo_state ∧ "2" ≠ ""
  ∧ (("id_" +:+ "2") ∈ model_columns_pkl demo_files)
  ∧ ∃ X : DataFrame,
      (encode 2025 "2" demo_state).1 = inr ()
      ∧ frame_at "input_encoded" (encode 2025 "2" demo_state).2 = Some X
      ∧ predict_calls (shown demo_state (results_panel true 2025 "2" demo_state).2) = [X]
      ∧ (∃ i, X !! i = Some ("id_" +:+ "2", VBool true))
      ∧ (∀ i col v, X !! i = Some (col, v) → String.prefix "id_" col = true →
           numeric v = Some (if decide (col = "id_" +:+ "2") then 1 else 0)%Z).
Proof.
  assert (("id_" +:+ "2") ∈ model_columns_pkl demo_files) as Hknown.
  { compute_done. }
  split; [split; reflexivity|]. split; [discriminate|]. split; [exact Hknown|].
  apply (encode_known_station demo_files demo_state 2025 "2");
    [split; reflexivity | discriminate | exact Hknown].
Defined.

Lemma encode_year_unchanged_witness :
  loaded demo_files demo_state ∧ "1" ≠ ""
  ∧ ∃ X : DataFrame,
      (encode 1850 "1" demo_state).1 = inr ()
      ∧ frame_at "input_encoded" (encode 1850 "1" demo_state).2 = Some X
      ∧ predict_calls (shown demo_state (results_panel true 1850 "1" demo_state).2) = [X]
      ∧ (∀ i, model_columns_pkl demo_files !! i = Some "year" → X !! i = Some ("year", VInt 1850))
      ∧ (∀ i v, X !! i = Some ("year", v) → v = VInt 1850)
      ∧ (results_panel true 1850 "1" demo_state).1 ≠ inr Warned.
Proof.
  split; [split; reflexivity|]. split; [discriminate|].
  apply (encode_year_unchanged demo_files demo_state 1850 "1");
    [split; reflexivity | discriminate].
Defined.

(** ** The panel: guard, prediction, and what stays untouched *)

Section Panel.

Context {num : Type}.

Implicit Types (files : artifacts (num:=num)) (σ : state (num:=num)).
Implicit Types (m : Estimator (num:=num)) (X : DataFrame).
Implicit Types (year_input : Z) (station_id : string) (predict_button : bool).

(** C5 (determinism).  Two runs on the same year and station id, in any
    two states whose [model] and [model_cols] are the same loaded
    artifacts, agree on the result of encoding, on the encoded row, on
    the result of the prediction step, on the panel's outcome and on
    everything the panel shows. *)
Theorem encode_predict_deterministic files σ1 σ2 predict_button year_input station_id :
  loaded files σ1 →
  loaded files σ2 →
  (encode year_input station_id σ1).1 = (encode year_input station_id σ2).1
  ∧ frame_at "input_encoded" (encode year_input station_id σ1).2
    = frame_at "input_encoded" (encode year_input station_id σ2).2
  ∧ (predict_step (encode year_input station_id σ1).2).1
    = (predict_step (encode year_input station_id σ2).2).1
  ∧ (results_panel predict_button year_input station_id σ1).1
    = (results_panel predict_button year_input station_id σ2).1
  ∧ shown σ1 (results_panel predict_button year_input station_id σ1).2
    = shown σ2 (results_panel predict_button year_input station_id σ2).2.
Proof.
  intros Hl1 Hl2.
  pose proof Hl1 as [_ (lc1 & Hgc1 & Hhc1)%list_at_inv].
  pose proof Hl2 as [_ (lc2 & Hgc2 & Hhc2)%list_at_inv].
  rewrite (encode_run _ _ _ _ _ Hgc1 Hhc1), (encode_run _ _ _ _ _ Hgc2 Hhc2).
  cbn [fst snd]. rewrite !after_encode_frame.
  pose proof (after_encode_loaded files year_input station_id
                (model_columns_pkl files) _ Hl1) as [Hm1 _].
  pose proof (after_encode_loaded files year_input station_id
                (model_columns_pkl files) _ Hl2) as [Hm2 _].
  rewrite (predict_step_run _ _ _ Hm1 (after_encode_frame _ _ _ _)).
  rewrite (predict_step_run _ _ _ Hm2 (after_encode_frame _ _ _ _)).
  split_and!; [done..| |].
  - destruct predict_button; [|done].
    destruct (decide (station_id = "")) as [->|Hs]; [done|].
    by rewrite !(panel_run files) by done.
  - destruct predict_button.
    + destruct (decide (station_id = "")) as [->|Hs].
      * rewrite !panel_warned_run. cbn [snd]. by rewrite !shown_app.
      * rewrite !(panel_run files) by done. cbn [snd]. by rewrite !shown_app.
    + rewrite !panel_idle_run. cbn [snd]. by rewrite !shown_app.
Qed.

(** C6 (six values or none).  With an estimator fitted on six targets,
    on any table [X] bound to [input_encoded], the prediction step calls
    the estimator once, on [X], and what the estimator answers decides
    the rest.  If it returns rows, the step returns the first row, which
    has exactly six values, and the panel shows the six metrics and the
    chart of the six.  If it raises, or returns no row ([IndexError]),
    the step raises that exception and the panel shows no value at
    all. *)
Theorem predict_six_or_none m X σ year_input station_id :
  six_targets m →
  estimator_at "model" σ = Some m →
  frame_at "input_encoded" σ = Some X →
  predict_calls (shown σ (predict_step σ).2) = [X]
  ∧ (∀ r rows, predict m X = inr (r :: rows) →
       (predict_step σ).1 = inr r
       ∧ length r = 6
       ∧ (predict_and_show year_input station_id σ).1 = inr (Predicted r)
       ∧ shown σ (predict_and_show year_input station_id σ).2
         = model_predict X :: st_success station_id year_input :: metrics r
           ++ [st_bar_chart (zip pollutants r)]
       ∧ length (metrics r) = 6)
  ∧ (∀ e, predict m X = inl e ∨ (predict m X = inr [] ∧ e = IndexError) →
       (predict_step σ).1 = inl e
       ∧ (predict_and_show year_input station_id σ).1 = inl e
       ∧ shown σ (predict_and_show year_input station_id σ).2 = [model_predict X]).
Proof.
  intros Hsix Hm HX.
  rewrite (predict_step_run m X σ Hm HX).
  rewrite (predict_and_show_run m X year_input station_id σ Hm HX).
  cbn [fst snd]. rewrite !shown_app. unfold prediction_events. split_and!.
  - reflexivity.
  - intros r rows Hp. rewrite Hp.
    apply Hsix, Forall_cons in Hp as [Hr _].
    unfold chart_frame. rewrite decide_True by done. split_and!; [done..|].
    destruct r as [|? [|? [|? [|? [|? [|? [|]]]]]]]; done.
  - by intros e [->|[-> ->]].
Qed.

(** C7 (invalid request).  The panel answers with the warning exactly
    when the station id is the empty string (the year is an integer in
    every request); then the warning is the only thing shown, no table
    reaches the estimator, and names and objects are as before. *)
Theorem warning_iff_empty_station σ year_input station_id :
  ((results_panel true year_input station_id σ).1 = inr Warned ↔ station_id = "")
  ∧ (station_id = "" →
       results_panel true year_input station_id σ
       = (inr Warned,
          State (globals σ) (heap σ)
                (log σ ++ [st_warning station_warning])))
  ∧ (station_id = "" →
       predict_calls (shown σ (results_panel true year_input station_id σ).2) = []
       ∧ frame_at "input_encoded" (results_panel true year_input station_id σ).2
         = frame_at "input_encoded" σ).
Proof.
  split_and!.
  - split; [|by intros ->].
    intros Hw. destruct (decide (station_id = "")) as [|Hs]; [done|].
    by destruct (panel_truthy_outcome year_input station_id σ Hs).
  - intros ->. apply panel_warned_run.
  - intros ->. rewrite panel_warned_run. cbn [snd]. by rewrite shown_app.
Qed.

(** C9 (artifacts are read only).  A run of the panel, whatever the
    button, the year and the station id, leaves [model] and [model_cols]
    bound as they were and every object that existed before the run as
    it was; so the two names still refer to the estimator and the column
    list that were loaded. *)
Theorem artifacts_never_modified files σ predict_button year_input station_id :
  loaded files σ →
  loaded files (results_panel predict_button year_input station_id σ).2
  ∧ globals (results_panel predict_button year_input station_id σ).2 !! "model"
    = globals σ !! "model"
  ∧ globals (results_panel predict_button year_input station_id σ).2 !! "model_cols"
    = globals σ !! "model_cols"
  ∧ (∀ l o, heap σ !! l = Some o →
            heap (results_panel predict_button year_input station_id σ).2 !! l = Some o).
Proof.
  intros Hl. split; [by apply panel_loaded|]. by apply (panel_preserves files).
Qed.

(** C10 (only the empty string is rejected).  Any non-empty station id,
    a blank included, passes the check of line 100: no warning is shown,
    encoding succeeds and the estimator is called on the encoded row. *)
Theorem nonempty_station_accepted files σ year_input station_id :
  loaded files σ →
  station_id ≠ "" →
  truthy station_id = true
  ∧ (results_panel true year_input station_id σ).1 ≠ inr Warned
  ∧ (∀ body, st_warning body ∉ shown σ (results_panel true year_input station_id σ).2)
  ∧ (encode year_input station_id σ).1 = inr ()
  ∧ predict_calls (shown σ (results_panel true year_input station_id σ).2)
    = [aligned_row year_input station_id (model_columns_pkl files)].
Proof.
  intros Hl Hs.
  destruct (panel_encoded files year_input station_id σ Hl Hs) as (He & _ & Hp).
  split_and!; [by apply truthy_true|by apply panel_truthy_outcome| |done..].
  intros body. rewrite (panel_run files) by done. cbn [snd]. rewrite shown_app.
  apply prediction_events_no_warning.
Qed.

End Panel.

Example demo_state_later_loaded : loaded demo_files demo_state_later.
Proof. split; vm_compute; reflexivity. Qed.

Example demo_estimator_six_targets : six_targets demo_estimator.
Proof.
  intros X rows. unfold demo_estimator. cbn [predict].
  destruct (to_numpy X); intros [= <-]. by repeat constructor.
Qed.

Lemma encode_predict_deterministic_witness :
  loaded demo_files demo_state
  ∧ loaded demo_files demo_state_later
  ∧ (results_panel true 2025 "1" demo_state).1
    = (results_panel true 2025 "1" demo_state_later).1
  ∧ shown demo_state (results_panel true 2025 "1" demo_state).2
    = shown demo_state_later
        (results_panel true 2025 "1" demo_state_later).2.
Proof.
  split; [split; reflexivity|]. split; [exact demo_state_later_loaded|].
  destruct (encode_predict_deterministic demo_files demo_state
              demo_state_later true 2025 "1")
    as (_ & _ & _ & Hout & Hshown);
    [split; reflexivity | exact demo_state_later_loaded | by split].
Defined.

Lemma predict_six_or_none_witness :
  six_targets demo_estimator
  ∧ estimator_at "model" (encode 2025 "1" demo_state).2 = Some demo_estimator
  ∧ frame_at "input_encoded" (encode 2025 "1" demo_state).2
    = Some [("year", VInt 2025); ("id_1", VBool true); ("id_2", VInt 0)]
  ∧ predict demo_estimator [("year", VInt 2025); ("id_1", VBool true); ("id_2", VInt 0)]
    = inr [[2027; 2028; 2029; 2030; 2031; 2032]%Z]
  ∧ predict_calls (shown (encode 2025 "1" demo_state).2
                     (predict_step (encode 2025 "1" demo_state).2).2)
    = [[("year", VInt 2025); ("id_1", VBool true); ("id_2", VInt 0)]]
  ∧ (predict_step (encode 2025 "1" demo_state).2).1
    = inr [2027; 2028; 2029; 2030; 2031; 2032]%Z
  ∧ length [2027; 2028; 2029; 2030; 2031; 2032]%Z = 6
  ∧ (predict_and_show 2025 "1" (encode 2025 "1" demo_state).2).1
    = inr (Predicted [2027; 2028; 2029; 2030; 2031; 2032]%Z)
  ∧ shown (encode 2025 "1" demo_state).2
      (predict_and_show 2025 "1" (encode 2025 "1" demo_state).2).2
    = model_predict [("year", VInt 2025); ("id_1", VBool true); ("id_2", VInt 0)]
      :: st_success "1" 2025 :: metrics [2027; 2028; 2029; 2030; 2031; 2032]%Z
      ++ [st_bar_chart (zip pollutants [2027; 2028; 2029; 2030; 2031; 2032]%Z)]
  ∧ length (metrics [2027; 2028; 2029; 2030; 2031; 2032]%Z) = 6.
Proof.
  split; [exact demo_estimator_six_targets|]. split; [reflexivity|]. split; [reflexivity|].
  split; [reflexivity|].
  destruct (predict_six_or_none demo_estimator
              [("year", VInt 2025); ("id_1", VBool true); ("id_2", VInt 0)]
              (encode 2025 "1" demo_state).2 2025 "1")
    as (Hcall & Hrow & _);
    [exact demo_estimator_six_targets | reflexivity | reflexivity |].
  split; [exact Hcall|].
  apply (Hrow [2027; 2028; 2029; 2030; 2031; 2032]%Z []). reflexivity.
Defined.

Lemma warning_iff_empty_station_witness :
  (results_panel true 2025 "" demo_state).1 = inr Warned
  ∧ predict_calls (shown demo_state (results_panel true 2025 "" demo_state).2) = []
  ∧ (results_panel true 2025 "7" demo_state).1 ≠ inr Warned.
Proof.
  destruct (warning_iff_empty_station demo_state 2025 "") as ([_ Hw] & _ & Hquiet).
  destruct (warning_iff_empty_station demo_state 2025 "7") as ([Hs _] & _ & _).
  split; [by apply Hw|]. split; [by apply Hquiet|].
  intros H. by apply Hs in H.
Defined.

Lemma artifacts_never_modified_witness :
  loaded demo_files demo_state
  ∧ loaded demo_files (results_panel true 2025 "1" demo_state).2
  ∧ globals (results_panel true 2025 "1" demo_state).2 !! "model"
    = globals demo_state !! "model"
  ∧ globals (results_panel true 2025 "1" demo_state).2 !! "model_cols"
    = globals demo_state !! "model_cols"
  ∧ (∀ l o, heap demo_state !! l = Some o →
            heap (results_panel true 2025 "1" demo_state).2 !! l = Some o).
Proof.
  split; [split; reflexivity|].
  apply (artifacts_never_modified demo_files demo_state true 2025 "1").
  split; reflexivity.
Defined.

Lemma nonempty_station_accepted_witness :
  loaded demo_files demo_state ∧ " " ≠ ""
  ∧ truthy " " = true
  ∧ (results_panel true 2025 " " demo_state).1 ≠ inr Warned
  ∧ (∀ body, st_warning body ∉ shown demo_state (results_panel true 2025 " " demo_state).2)
  ∧ (encode 2025 " " demo_state).1 = inr ()
  ∧ predict_calls (shown demo_state (results_panel true 2025 " " demo_state).2)
    = [aligned_row 2025 " " (model_columns_pkl demo_files)].
Proof.
  split; [split; reflexivity|]. split; [discriminate|].
  apply (nonempty_station_accepted demo_files demo_state 2025 " ");
    [split; reflexivity | discriminate].
Defined.

(** * More of the script *)

(** ** The zero-filling loop and the reindexing, on any frame *)

Section Alignment.

Implicit Types (df ext : DataFrame) (c col : string) (cols key : list string).

Lemma zero_fill_appends cols df :
  ∃ ext, zero_fill df cols = df ++ ext
         ∧ Forall (λ cv, cv.2 = VInt 0 ∧ cv.1 ∈ cols ∧ cv.1 ∉ columns df) ext
         ∧ NoDup (columns ext).
Proof.
  revert df. induction cols as [|col cols IH]; intros df.
  { exists []. split_and!; [by rewrite app_nil_r|constructor|constructor]. }
  rewrite zero_fill_cons. destruct (decide (col ∈ columns df)) as [Hin|Hout].
  - rewrite fill_step_present by done. destruct (IH df) as (ext & -> & Hext & Hnd).
    exists ext. split_and!; [done| |done].
    eapply Forall_impl; [exact Hext|]. intros cv (? & ? & ?). split_and!; [done| |done].
    by right.
  - rewrite fill_step_absent by done.
    destruct (IH (df ++ [(col, VInt 0)])) as (ext & -> & Hext & Hnd).
    exists ((col, VInt 0) :: ext). split_and!.
    + by rewrite <- app_assoc.
    + constructor; [split_and!; [done|by left|done]|].
      eapply Forall_impl; [exact Hext|]. intros cv (? & ? & Hnew).
      split_and!; [done|by right|]. intros Hc. apply Hnew.
      rewrite columns_app. apply elem_of_app. by left.
    + rewrite columns_cons. apply NoDup_cons. split; [|done].
      intros ([c v] & Hc & Hcv)%list_elem_of_fmap. cbn in Hc. subst c.
      apply (proj1 (Forall_forall _ _) Hext) in Hcv as (_ & _ & Hnew). apply Hnew.
      rewrite columns_app. apply elem_of_app. right. by apply list_elem_of_singleton.
Qed.

Lemma zero_fill_id cols df : (∀ c, c ∈ cols → c ∈ columns df) → zero_fill df cols = df.
Proof.
  induction cols as [|col cols IH]; intros Hall; [done|].
  rewrite zero_fill_cons, fill_step_present by (apply Hall; by left).
  apply IH. intros c Hc. apply Hall. by right.
Qed.

Lemma zero_fill_idempotent cols df : zero_fill (zero_fill df cols) cols = zero_fill df cols.
Proof. apply zero_fill_id. intros c Hc. by apply zero_fill_covers. Qed.

Lemma zero_fill_NoDup cols df : NoDup (columns df) → NoDup (columns (zero_fill df cols)).
Proof.
  intros Hnd. destruct (zero_fill_appends cols df) as (ext & -> & Hext & Hnd').
  rewrite columns_app. apply NoDup_app. split_and!; [done| |done].
  intros c Hc ([c' v] & -> & Hcv)%list_elem_of_fmap.
  by apply (proj1 (Forall_forall _ _) Hext) in Hcv as (_ & _ & Hnew).
Qed.

Lemma filter_label_present df c : c ∈ columns df → filter (λ cv, cv.1 = c) df ≠ [].
Proof.
  intros [v Hv]%columns_elem_of Hnil.
  assert ((c, v) ∈ filter (λ cv, cv.1 = c) df) as Hin by by apply list_elem_of_filter.
  rewrite Hnil in Hin. by apply elem_of_nil in Hin.
Qed.

(** Selecting labels that all occur never raises, and only picks
    columns of the frame that carry a selected label. *)
Lemma getitem_present df key :
  (∀ c, c ∈ key → c ∈ columns df) →
  ∃ X, getitem df key = inr X ∧ ∀ cv, cv ∈ X → cv ∈ df ∧ cv.1 ∈ key.
Proof.
  induction key as [|c key IH]; intros Hall.
  { exists []. split; [done|]. by intros cv ?%elem_of_nil. }
  destruct IH as (rest & Hrest & Hsub); [intros c' ?; apply Hall; by right|].
  cbn [getitem]. rewrite Hrest.
  destruct (filter (λ cv, cv.1 = c) df) as [|hit hits] eqn:Hf.
  { by destruct (filter_label_present df c (Hall c ltac:(by left))). }
  eexists. split; [done|]. rewrite <- Hf.
  intros cv [[Hc Hin]%list_elem_of_filter|Hin]%elem_of_app.
  - split; [done|]. rewrite Hc. by left.
  - destruct (Hsub cv Hin). split; [done|by right].
Qed.

Lemma getitem_NoDup df key :
  NoDup (columns df) → (∀ c, c ∈ key → c ∈ columns df) →
  ∃ X, getitem df key = inr X ∧ columns X = key ∧ ∀ cv, cv ∈ X → cv ∈ df.
Proof.
  intros Hnd. induction key as [|c key IH]; intros Hall.
  { exists []. split_and!; [done..|]. by intros cv ?%elem_of_nil. }
  destruct IH as (rest & Hrest & Hcols & Hsub); [intros c' ?; apply Hall; by right|].
  destruct (columns_elem_of c df (Hall c ltac:(by left))) as [v Hv].
  cbn [getitem]. rewrite (filter_label_unique df c v), Hrest by done.
  eexists. split_and!; [done|by rewrite <- Hcols|].
  intros cv [->|Hin]%elem_of_cons; [done|by apply Hsub].
Qed.

End Alignment.

Section RestRuns.

Context {num : Type}.

Local Abbreviation state := (state (num:=num)).
Local Abbreviation obj := (obj (num:=num)).
Local Abbreviation event := (event (num:=num)).

Implicit Types (σ : state) (l : loc) (o : obj) (df ext X : DataFrame).
Implicit Types (name col : string) (cols : list string).
Implicit Types (files : artifacts (num:=num)) (m : Estimator (num:=num)).

Ltac step := erewrite bind_inr by reflexivity.
Ltac step_by tac := erewrite bind_inr; [|tac].

Lemma frame_at_state g (h : gmap loc obj) (lg lg' : list event) name :
  frame_at name (State g h lg) = frame_at name (State g h lg').
Proof. reflexivity. Qed.

Lemma unique_cell df c v v' :
  NoDup (columns df) → (c, v) ∈ df → (c, v') ∈ df → v = v'.
Proof.
  intros Hnd Hv Hv'.
  assert ((c, v') ∈ filter (λ cv, cv.1 = c) df) as Hin by by apply list_elem_of_filter.
  rewrite (filter_label_unique df c v) in Hin by done.
  apply list_elem_of_singleton in Hin. congruence.
Qed.

(** A frame and a list are different objects. *)
Lemma frame_list_apart (h : gmap loc obj) l lc df cols :
  h !! l = Some (ODataFrame df) → h !! lc = Some (OList cols) → l ≠ lc.
Proof. intros Hl Hlc ->. congruence. Qed.

(** Lines 107-110 from any state in which [input_encoded] names a frame
    and [model_cols] a list, given what the selection returns. *)
Lemma align_run σ l lc df cols X :
  globals σ !! "input_encoded" = Some l → heap σ !! l = Some (ODataFrame df) →
  globals σ !! "model_cols" = Some lc → heap σ !! lc = Some (OList cols) →
  getitem (zero_fill df cols) cols = inr X →
  align σ
  = (inr (),
     let h := <[l := ODataFrame (zero_fill df cols)]> (heap σ) in
     State (<["input_encoded" := fresh (dom h)]> (globals σ))
           (<[fresh (dom h) := ODataFrame X]> h) (log σ)).
Proof.
  intros Hg Hh Hgc Hhc Hsel. unfold align.
  pose proof (frame_list_apart _ _ _ _ _ Hh Hhc) as Hne.
  step_by ltac:(by apply (list_of_run _ _ lc)).
  step_by ltac:(by apply (for_each_fill_run _ _ l)).
  step_by ltac:(apply (frame_of_run _ _ l); cbn; [done|apply lookup_insert_eq]).
  step_by ltac:(apply (list_of_run _ _ lc); cbn; [done|by rewrite lookup_insert_ne]).
  step_by ltac:(unfold lift; by rewrite Hsel).
  step. reflexivity.
Qed.

(** X1.  The loop of lines 107-109 never overwrites or moves a column:
    the frame it leaves is the frame it found followed by new columns,
    which all hold 0, carry pairwise different labels of the list it
    walked, and none of which the frame had before. *)
Theorem fill_loop_only_appends cols σ df :
  frame_at "input_encoded" σ = Some df →
  (for_each cols fill_column σ).1 = inr ()
  ∧ ∃ ext,
      frame_at "input_encoded" (for_each cols fill_column σ).2 = Some (df ++ ext)
      ∧ Forall (λ cv, cv.2 = VInt 0 ∧ cv.1 ∈ cols ∧ cv.1 ∉ columns df) ext
      ∧ NoDup (columns ext).
Proof.
  intros (l & Hg & Hh)%frame_at_inv.
  rewrite (for_each_fill_run cols σ l df Hg Hh). split; [done|].
  destruct (zero_fill_appends cols df) as (ext & Heq & Hext & Hnd).
  exists ext. split_and!; [|done..].
  apply frame_at_inv. exists l. cbn [globals heap snd].
  split; [done|]. by rewrite lookup_insert_eq, Heq.
Qed.

(** X2.  Walking the list a second time changes nothing: after one pass
    every label of the list is a column, so the second pass finds
    nothing to add. *)
Theorem fill_loop_idempotent cols σ df :
  frame_at "input_encoded" σ = Some df →
  (for_each cols fill_column;; for_each cols fill_column) σ
  = for_each cols fill_column σ.
Proof.
  intros (l & Hg & Hh)%frame_at_inv.
  rewrite (bind_inr _ _ _ _ _ (for_each_fill_run cols σ l df Hg Hh)).
  rewrite (for_each_fill_run cols _ l (zero_fill df cols));
    [|done|apply lookup_insert_eq].
  rewrite (for_each_fill_run cols σ l df Hg Hh). cbn [globals heap log].
  by rewrite insert_insert_eq, zero_fill_idempotent.
Qed.

(** X3.  Lines 107-110 cannot raise [KeyError], whatever frame
    [input_encoded] names and whatever [model_cols] lists: the loop has
    added every label the selection asks for.  Each column of the result
    carries a label of [model_cols] and is either a column of the frame
    that came in or a new column holding 0. *)
Theorem align_never_raises σ df cols :
  frame_at "input_encoded" σ = Some df →
  list_at "model_cols" σ = Some cols →
  (align σ).1 = inr ()
  ∧ ∃ X, frame_at "input_encoded" (align σ).2 = Some X
         ∧ ∀ cv, cv ∈ X →
             cv.1 ∈ cols ∧ (cv ∈ df ∨ (cv.2 = VInt 0 ∧ cv.1 ∉ columns df)).
Proof.
  intros (l & Hg & Hh)%frame_at_inv (lc & Hgc & Hhc)%list_at_inv.
  destruct (getitem_present (zero_fill df cols) cols) as (X & Hsel & Hsub).
  { intros c Hc. by apply zero_fill_covers. }
  rewrite (align_run σ l lc df cols X) by done. cbn [fst snd]. split; [done|].
  exists X. split.
  - apply frame_at_inv. eexists. cbn [globals heap]. by rewrite !lookup_insert_eq.
  - intros cv [Hin Hkey]%Hsub. split; [done|].
    destruct (zero_fill_appends cols df) as (ext & Heq & Hext & _).
    rewrite Heq in Hin. apply elem_of_app in Hin as [Hin|Hin]; [by left|right].
    by apply (proj1 (Forall_forall _ _) Hext) in Hin as (? & _ & ?).
Qed.

(** X4.  On any frame whose labels are pairwise different, lines 107-110
    produce a frame labelled exactly by [model_cols], in its order, and
    every column of the incoming frame that [model_cols] names keeps its
    value. *)
Theorem align_distinct_labels σ df cols :
  frame_at "input_encoded" σ = Some df →
  list_at "model_cols" σ = Some cols →
  NoDup (columns df) →
  ∃ X, frame_at "input_encoded" (align σ).2 = Some X
       ∧ columns X = cols
       ∧ ∀ c v, (c, v) ∈ df → c ∈ cols → (c, v) ∈ X.
Proof.
  intros (l & Hg & Hh)%frame_at_inv (lc & Hgc & Hhc)%list_at_inv Hnd.
  pose proof (zero_fill_NoDup cols df Hnd) as Hnd'.
  destruct (getitem_NoDup (zero_fill df cols) cols Hnd') as (X & Hsel & Hcols & Hsub).
  { intros c Hc. by apply zero_fill_covers. }
  rewrite (align_run σ l lc df cols X) by done. cbn [snd].
  exists X. split_and!; [|done|].
  - apply frame_at_inv. eexists. cbn [globals heap]. by rewrite !lookup_insert_eq.
  - intros c v Hv Hc. rewrite <- Hcols in Hc.
    destruct (columns_elem_of c X Hc) as [v' Hv'].
    assert ((c, v) ∈ zero_fill df cols) as Hin.
    { destruct (zero_fill_appends cols df) as (ext & -> & _). apply elem_of_app. by left. }
    by rewrite (unique_cell _ c v v' Hnd' Hin (Hsub _ Hv')).
Qed.

End RestRuns.

(** ** How the encoded row depends on the request *)

Section Rows.

Implicit Types (c col : string) (cols : list string) (y : Z) (s : string).

Lemma dummy_label_inj s1 s2 : "id_" +:+ s1 = "id_" +:+ s2 → s1 = s2.
Proof. cbn. intros H. by injection H. Qed.

Lemma aligned_row_ext y1 s1 y2 s2 cols :
  aligned_row y1 s1 cols = aligned_row y2 s2 cols
  ↔ ∀ c, c ∈ cols → cell y1 s1 c = cell y2 s2 c.
Proof.
  unfold aligned_row. induction cols as [|c cols IH]; cbn.
  - split; [by intros _ c ?%elem_of_nil|done].
  - split.
    + intros [= Hc Hrest] c' [->|Hin]%elem_of_cons; [done|]. by apply IH.
    + intros Hall. f_equal.
      * f_equal. apply Hall. by left.
      * apply IH. intros c' Hc'. apply Hall. by right.
Qed.

Lemma cell_numeric y s c :
  numeric (cell y s c)
  = Some (if decide (c = "year") then y
          else if decide (c = "id_" +:+ s) then 1 else 0)%Z.
Proof. unfold cell. by repeat case_decide. Qed.

Lemma to_numpy_aligned_row y s cols :
  to_numpy (aligned_row y s cols)
  = Some ((λ c, if decide (c = "year") then y
                else if decide (c = "id_" +:+ s) then 1 else 0)%Z <$> cols).
Proof.
  unfold to_numpy, values, aligned_row.
  induction cols as [|c cols IH]; [done|].
  cbn. cbn in IH. rewrite cell_numeric. cbn. by rewrite IH.
Qed.

End Rows.

Section Requests.

Context {num : Type}.

Local Abbreviation state := (state (num:=num)).
Local Abbreviation event := (event (num:=num)).

Implicit Types (σ : state) (l : loc) (X : DataFrame).
Implicit Types (files : artifacts (num:=num)) (m : Estimator (num:=num)).
Implicit Types (year_input y : Z) (station_id s : string).

(** [encode] is lines 104-105 followed by lines 107-110. *)
Lemma encode_split year_input station_id σ :
  encode year_input station_id σ = (build_dummies year_input station_id;; align) σ.
Proof.
  unfold encode, build_dummies, align, mbind, M_bind.
  repeat match goal with
         | |- context [match ?x with (_, _) => _ end] => destruct x as [[?|?] ?]
         end; reflexivity.
Qed.

Lemma encode_frame files year_input station_id σ :
  loaded files σ →
  frame_at "input_encoded" (encode year_input station_id σ).2
  = Some (aligned_row year_input station_id (model_columns_pkl files)).
Proof.
  intros [_ (lc & Hgc & Hhc)%list_at_inv].
  rewrite (encode_run _ _ _ _ _ Hgc Hhc). apply after_encode_frame.
Qed.

(** X5.  The request frame survives the encoding: after lines 104-110
    [input_df] still names the row (year, station id) as it was built;
    the zero-filling writes into the frame [get_dummies] returned, never
    into the one it was given. *)
Theorem input_df_kept files year_input station_id σ :
  loaded files σ →
  frame_at "input_df" (encode year_input station_id σ).2
  = Some [("year", VInt year_input); ("id", VStr station_id)].
Proof.
  intros [_ (lc & Hgc & Hhc)%list_at_inv].
  rewrite (encode_run _ _ _ _ _ Hgc Hhc). cbn [snd].
  apply frame_at_inv. eexists. unfold after_encode. cbn [globals heap]. split.
  - rewrite !lookup_insert_ne by done. apply lookup_insert_eq.
  - do 2 (apply lookup_insert_fresh). apply lookup_insert_eq.
Qed.

(** The returned value of lines 113-136 does not depend on the year and
    the station id, which only appear in the banner. *)
Lemma prediction_events_result m X y s y' s' :
  (prediction_events m X y s).1 = (prediction_events m X y' s').1.
Proof.
  unfold prediction_events. destruct (predict m X) as [e|[|r rows]]; [done..|].
  by destruct (chart_frame pollutants r).
Qed.

(** X6.  Station ids the model does not know are indistinguishable: two
    requests for the same year whose dummy labels are both missing from
    [model_cols] are encoded as the same row, and the panel hands back
    the same result for both. *)
Theorem unknown_stations_same_row files year_input s1 s2 σ :
  loaded files σ →
  s1 ≠ "" →
  s2 ≠ "" →
  ("id_" +:+ s1) ∉ model_columns_pkl files →
  ("id_" +:+ s2) ∉ model_columns_pkl files →
  frame_at "input_encoded" (encode year_input s1 σ).2
  = frame_at "input_encoded" (encode year_input s2 σ).2
  ∧ (results_panel true year_input s1 σ).1 = (results_panel true year_input s2 σ).1.
Proof.
  intros Hl Hs1 Hs2 H1 H2.
  assert (aligned_row year_input s1 (model_columns_pkl files)
          = aligned_row year_input s2 (model_columns_pkl files)) as Heq.
  { apply aligned_row_ext. intros c Hc. unfold cell.
    destruct (decide (c = "year")); [done|].
    rewrite !decide_False; [done|by intros ->..]. }
  rewrite !(encode_frame files), !(panel_run files) by done. cbn [fst].
  rewrite Heq. split; [done|]. apply prediction_events_result.
Qed.

(** X7.  A station id the model knows is told apart from every other
    one: if [id_<s1>] is in [model_cols] and [s2] differs from [s1], the
    two requests are encoded as different rows. *)
Theorem known_station_distinct_row files year_input s1 s2 σ :
  loaded files σ →
  ("id_" +:+ s1) ∈ model_columns_pkl files →
  s1 ≠ s2 →
  frame_at "input_encoded" (encode year_input s1 σ).2
  ≠ frame_at "input_encoded" (encode year_input s2 σ).2.
Proof.
  intros Hl Hknown Hne. rewrite !(encode_frame files) by done.
  intros [= Heq]. pose proof (proj1 (aligned_row_ext _ _ _ _ _) Heq _ Hknown) as Hcell.
  rewrite cell_own_dummy, cell_other in Hcell; [done|done|].
  by intros ?%dummy_label_inj.
Qed.

(** X8.  The year reaches the row through a [year] column and in no
    other way: two requests for one station are encoded alike exactly
    when the years are equal or [model_cols] has no [year]. *)
Theorem year_matters_iff_year_column files y1 y2 station_id σ :
  loaded files σ →
  frame_at "input_encoded" (encode y1 station_id σ).2
  = frame_at "input_encoded" (encode y2 station_id σ).2
  ↔ y1 = y2 ∨ "year" ∉ model_columns_pkl files.
Proof.
  intros Hl. rewrite !(encode_frame files) by done. split.
  - intros [= Heq]. destruct (decide ("year" ∈ model_columns_pkl files)) as [Hin|]; [|by right].
    left. pose proof (proj1 (aligned_row_ext _ _ _ _ _) Heq _ Hin) as Hcell.
    rewrite !cell_year in Hcell. by injection Hcell.
  - intros Hcase. f_equal. apply aligned_row_ext. intros c Hc. unfold cell.
    destruct (decide (c = "year")) as [->|]; [|done].
    by destruct Hcase as [->|].
Qed.

(** X9.  Every cell of the encoded row is a number, whatever
    [model_cols] lists (were it a column called [id]): the row reads as
    one number per model column, each of them the year, 1 or 0; the
    station string itself is never handed to the estimator. *)
Theorem encoded_row_numeric files year_input station_id σ :
  loaded files σ →
  ∃ xs, (frame_at "input_encoded" (encode year_input station_id σ).2 ≫= to_numpy) = Some xs
        ∧ length xs = length (model_columns_pkl files)
        ∧ ∀ x, x ∈ xs → (x = year_input ∨ x = 1 ∨ x = 0)%Z.
Proof.
  intros Hl. rewrite (encode_frame files) by done. cbn [mbind option_bind].
  rewrite to_numpy_aligned_row. eexists. split_and!; [done|apply length_fmap|].
  intros x (c & -> & _)%list_elem_of_fmap. repeat case_decide; auto.
Qed.

End Requests.

(** ** What the panel and the whole script hand back *)

Section Outcomes.

Context {num : Type}.

Local Abbreviation state := (state (num:=num)).
Local Abbreviation event := (event (num:=num)).

Implicit Types (σ : state) (l : loc) (X : DataFrame) (r : list num).
Implicit Types (files : artifacts (num:=num)) (m : Estimator (num:=num)).
Implicit Types (year_input : Z) (station_id : string) (predict_button : bool).

Lemma metrics_length r : length (metrics r) = Nat.min 6 (length r).
Proof.
  unfold metrics. rewrite length_fmap.
  by destruct r as [|? [|? [|? [|? [|? [|? r]]]]]].
Qed.

Lemma chart_frame_six r :
  chart_frame pollutants r
  = if decide (length r = 6) then inr (zip pollutants r) else inl ValueError.
Proof. unfold chart_frame. cbn [pollutants length]. by repeat case_decide. Qed.

(** X10.  An estimator whose first row does not have six entries gets a
    partial display: the banner and one metric per entry, at most six,
    are shown, and then building the chart frame raises [ValueError]. *)
Theorem wrong_length_partial_display files year_input station_id σ r rows :
  loaded files σ →
  station_id ≠ "" →
  predict (pollution_model_pkl files)
          (aligned_row year_input station_id (model_columns_pkl files)) = inr (r :: rows) →
  length r ≠ 6 →
  (results_panel true year_input station_id σ).1 = inl ValueError
  ∧ shown σ (results_panel true year_input station_id σ).2
    = model_predict (aligned_row year_input station_id (model_columns_pkl files))
      :: st_success station_id year_input :: metrics r
  ∧ length (metrics r) = Nat.min 6 (length r).
Proof.
  intros Hl Hs Hp Hlen. rewrite (panel_run files) by done. cbn [fst snd].
  rewrite shown_app. unfold prediction_events.
  rewrite Hp, chart_frame_six, decide_False by done.
  split_and!; [done..|apply metrics_length].
Qed.

(** X11.  An exception of the estimator leaves the panel unchanged, and
    an empty result makes line 113 raise [IndexError]; in both cases
    nothing is shown after the call, and [input_encoded] still names the
    encoded row. *)
Theorem estimator_failure_propagates files year_input station_id σ e :
  loaded files σ →
  station_id ≠ "" →
  predict (pollution_model_pkl files)
          (aligned_row year_input station_id (model_columns_pkl files)) = inl e
  ∨ (predict (pollution_model_pkl files)
             (aligned_row year_input station_id (model_columns_pkl files)) = inr []
     ∧ e = IndexError) →
  (results_panel true year_input station_id σ).1 = inl e
  ∧ shown σ (results_panel true year_input station_id σ).2
    = [model_predict (aligned_row year_input station_id (model_columns_pkl files))]
  ∧ frame_at "input_encoded" (results_panel true year_input station_id σ).2
    = Some (aligned_row year_input station_id (model_columns_pkl files)).
Proof.
  intros Hl Hs Hp. rewrite (panel_run files) by done. cbn [fst snd].
  rewrite shown_app. unfold prediction_events.
  rewrite (frame_at_state _ _ _ (log (after_encode year_input station_id
             (model_columns_pkl files) σ))).
  rewrite state_eta, after_encode_frame.
  by destruct Hp as [->|[-> ->]].
Qed.

(** X12.  With any estimator at all, a panel run that hands back
    predictions hands back exactly six: the station id was not empty,
    and the banner, six metrics and the chart of the six were shown. *)
Theorem predicted_means_six files year_input station_id σ r :
  loaded files σ →
  (results_panel true year_input station_id σ).1 = inr (Predicted r) →
  station_id ≠ ""
  ∧ length r = 6
  ∧ shown σ (results_panel true year_input station_id σ).2
    = model_predict (aligned_row year_input station_id (model_columns_pkl files))
      :: st_success station_id year_input :: metrics r
      ++ [st_bar_chart (zip pollutants r)]
  ∧ length (metrics r) = 6.
Proof.
  intros Hl Hout.
  destruct (decide (station_id = "")) as [->|Hs].
  { by rewrite panel_warned_run in Hout. }
  rewrite (panel_run files) in Hout |- * by done. cbn [fst snd] in Hout |- *.
  rewrite shown_app. unfold prediction_events in Hout |- *.
  destruct (predict _ _) as [e|[|r' rows]]; [done..|].
  rewrite chart_frame_six in Hout |- *.
  destruct (decide (length r' = 6)) as [Hlen|]; [|done].
  injection Hout as ->. split_and!; [done..|].
  by rewrite metrics_length, Hlen.
Qed.

End Outcomes.

(** ** Reruns of the whole script *)

Section Reruns.

Context {num : Type}.

Local Abbreviation state := (state (num:=num)).
Local Abbreviation event := (event (num:=num)).

Implicit Types (σ : state) (l : loc) (X : DataFrame) (r : list num).
Implicit Types (files : artifacts (num:=num)) (m : Estimator (num:=num)).
Implicit Types (d : disk (num:=num)) (cols : list string).
Implicit Types (year_input : Z) (station_id : string) (predict_button : bool).

Lemma bind_inl {A B} (c : M (num:=num) A) (k : A → M B) σ e σ' :
  c σ = (inl e, σ') → (c ≫= k) σ = (inl e, σ').
Proof. intros H. unfold mbind, M_bind. by rewrite H. Qed.

Lemma readable_files m cols :
  {| pollution_model_pkl_file := inr m; model_columns_pkl_file := inr cols |}
  = readable {| pollution_model_pkl := m; model_columns_pkl := cols |}.
Proof. reflexivity. Qed.

(** Both loads succeed. *)
Lemma startup_run files σ :
  startup (readable files) σ
  = (inr (),
     let l1 := fresh (dom (heap σ)) in
     let h1 := <[l1 := OEstimator (pollution_model_pkl files)]> (heap σ) in
     let l2 := fresh (dom h1) in
     State (<["model_cols" := l2]> (<["model" := l1]> (globals σ)))
           (<[l2 := OList (model_columns_pkl files)]> h1) (log σ)).
Proof. reflexivity. Qed.

(** The first load raises: line 11 is not reached. *)
Lemma startup_model_fails d σ e :
  pollution_model_pkl_file d = inl e → startup d σ = (inl e, σ).
Proof. intros H. unfold startup, joblib_load. by rewrite H. Qed.

(** The second load raises: [model] is bound already. *)
Lemma startup_columns_fail d σ m e :
  pollution_model_pkl_file d = inr m → model_columns_pkl_file d = inl e →
  startup d σ
  = (inl e,
     State (<["model" := fresh (dom (heap σ))]> (globals σ))
           (<[fresh (dom (heap σ)) := OEstimator m]> (heap σ)) (log σ)).
Proof. intros Hm Hc. unfold startup, joblib_load. by rewrite Hm, Hc. Qed.

Lemma startup_loaded_any files σ : loaded files (startup (readable files) σ).2.
Proof.
  rewrite startup_run. cbn [snd]. split.
  - apply estimator_at_inv. eexists. cbn [globals heap]. split.
    + rewrite lookup_insert_ne by done. apply lookup_insert_eq.
    + apply lookup_insert_fresh, lookup_insert_eq.
  - apply list_at_inv. eexists. cbn [globals heap]. by rewrite !lookup_insert_eq.
Qed.

(** X13.  Lines 10-11 succeed exactly when both files load.  Then, from
    any state, [model] and [model_cols] name the two artifacts, at two
    different new locations, and no object that existed, no other name
    and nothing shown is touched.  If the model file does not load, its
    exception is raised and the state is as before.  If only the column
    file does not load, its exception is raised with [model] already
    rebound to the new estimator and [model_cols] left as it was. *)
Theorem startup_any_state d σ :
  ((startup d σ).1 = inr () ↔ ∃ files, d = readable files)
  ∧ (∀ files, d = readable files →
       loaded files (startup d σ).2
       ∧ globals (startup d σ).2 !! "model" ≠ globals (startup d σ).2 !! "model_cols"
       ∧ (∀ l o, heap σ !! l = Some o → heap (startup d σ).2 !! l = Some o)
       ∧ (∀ name, name ≠ "model" → name ≠ "model_cols" →
                  globals (startup d σ).2 !! name = globals σ !! name)
       ∧ log (startup d σ).2 = log σ)
  ∧ (∀ e, pollution_model_pkl_file d = inl e → startup d σ = (inl e, σ))
  ∧ (∀ m e, pollution_model_pkl_file d = inr m → model_columns_pkl_file d = inl e →
       (startup d σ).1 = inl e
       ∧ estimator_at "model" (startup d σ).2 = Some m
       ∧ globals (startup d σ).2 !! "model_cols" = globals σ !! "model_cols"
       ∧ (∀ l o, heap σ !! l = Some o → heap (startup d σ).2 !! l = Some o)).
Proof.
  split_and!.
  - split.
    + destruct d as [[e|m] [e'|cols]].
      * by rewrite (startup_model_fails _ σ e).
      * by rewrite (startup_model_fails _ σ e).
      * by rewrite (startup_columns_fail _ σ m e').
      * intros _. eexists. apply readable_files.
    + intros [files ->]. by rewrite startup_run.
  - intros files ->. pose proof (startup_loaded_any files σ) as Hloaded. revert Hloaded.
    rewrite startup_run. cbn [fst snd globals heap log]. intros Hloaded.
    split_and!; [done| | | |done].
    + rewrite lookup_insert_eq, lookup_insert_ne, lookup_insert_eq by done.
      intros [= Heq]. symmetry in Heq. revert Heq. eapply fresh_ne. apply lookup_insert_eq.
    + intros l o Hl. by do 2 apply lookup_insert_fresh.
    + intros name H1 H2. by rewrite !lookup_insert_ne.
  - intros e. apply startup_model_fails.
  - intros m e Hm Hc. rewrite (startup_columns_fail d σ m e Hm Hc).
    cbn [fst snd globals heap]. split_and!; [done| | |].
    + apply estimator_at_inv. eexists. cbn [globals heap]. by rewrite !lookup_insert_eq.
    + by rewrite lookup_insert_ne.
    + intros l o Hl. by apply lookup_insert_fresh.
Qed.

(** A run of the panel in a state with the artifacts loaded: what it
    returns, and what it adds to the log. *)
Lemma panel_view_state files predict_button year_input station_id σ :
  loaded files σ →
  ∃ g h,
    results_panel predict_button year_input station_id σ
    = ((panel_view files predict_button year_input station_id).1,
       State g h (log σ ++ (panel_view files predict_button year_input station_id).2)).
Proof.
  intros Hl. unfold panel_view. destruct predict_button.
  - destruct (decide (station_id = "")) as [->|Hs].
    + rewrite panel_warned_run. by eexists _, _.
    + rewrite (panel_run files) by done. by eexists _, _.
  - rewrite panel_idle_run. by eexists _, _.
Qed.

Lemma shown_same σ : shown σ σ = [].
Proof. unfold shown. apply drop_all. Qed.

(** A run of the whole script, from any state. *)
Lemma script_view_run d predict_button year_input station_id σ :
  (script d predict_button year_input station_id σ).1
  = (script_view d predict_button year_input station_id).1
  ∧ shown σ (script d predict_button year_input station_id σ).2
    = (script_view d predict_button year_input station_id).2.
Proof.
  unfold script, script_view. destruct d as [[e|m] [e'|cols]]; cbn [pollution_model_pkl_file
    model_columns_pkl_file].
  - erewrite bind_inl by by apply startup_model_fails.
    by rewrite shown_same.
  - erewrite bind_inl by by apply startup_model_fails.
    by rewrite shown_same.
  - erewrite bind_inl by by apply startup_columns_fail.
    cbn [fst snd]. split; [done|]. unfold shown. cbn [log]. apply drop_all.
  - rewrite readable_files.
    set (files := {| pollution_model_pkl := m; model_columns_pkl := cols |}).
    rewrite (bind_inr _ _ _ _ _ (startup_run files σ)).
    rewrite (bind_inr _ _ _ _ _ (emit_run _ _)).
    set (σ' := State _ _ (log _ ++ [st_info model_information])).
    assert (loaded files σ') as Hl.
    { apply (loaded_preserved files (startup (readable files) σ).2);
        [apply startup_loaded_any|done..]. }
    destruct (panel_view_state files predict_button year_input station_id σ' Hl)
      as (g & h & Hrun).
    destruct (panel_view files predict_button year_input station_id) as [[e|out] evs].
    + rewrite (bind_inl _ _ _ _ _ Hrun). cbn [fst snd log]. split; [done|].
      change (log σ') with (log σ ++ [st_info model_information]).
      by rewrite <- app_assoc, shown_app.
    + rewrite (bind_inr _ _ _ _ _ Hrun). cbn [fst snd].
      do 3 rewrite (bind_inr _ _ _ _ _ (emit_run _ _)).
      unfold mret, M_ret. cbn [globals heap log fst snd].
      split; [done|]. change (log σ') with (log σ ++ [st_info model_information]).
      rewrite <- !app_assoc. by rewrite shown_app.
Qed.

(** X14.  A rerun of the script does not depend on what earlier runs
    left behind: from any two states, with the same disk and the same
    widget values, it hands back the same result and shows the same
    things, the sidebar note and the notices of the second column
    included. *)
Theorem script_forgets_history d predict_button year_input station_id σ1 σ2 :
  (script d predict_button year_input station_id σ1).1
  = (script d predict_button year_input station_id σ2).1
  ∧ shown σ1 (script d predict_button year_input station_id σ1).2
    = shown σ2 (script d predict_button year_input station_id σ2).2.
Proof.
  destruct (script_view_run d predict_button year_input station_id σ1) as [-> ->].
  by destruct (script_view_run d predict_button year_input station_id σ2) as [-> ->].
Qed.

(** X15.  A rerun with the button pressed can fail in five ways only:
    the model file does not load, the column file does not load, the
    estimator raised, it returned no row ([IndexError]), or its first
    row does not have six entries ([ValueError]).  Between the loads and
    the call of the estimator nothing raises: not the name lookups, not
    the one-hot encoding, not the selection of line 110. *)
Theorem script_failures d year_input station_id σ e :
  (script d true year_input station_id σ).1 = inl e →
  pollution_model_pkl_file d = inl e
  ∨ (∃ m, pollution_model_pkl_file d = inr m ∧ model_columns_pkl_file d = inl e)
  ∨ (∃ m cols,
       pollution_model_pkl_file d = inr m
       ∧ model_columns_pkl_file d = inr cols
       ∧ station_id ≠ ""
       ∧ (predict m (aligned_row year_input station_id cols) = inl e
          ∨ (predict m (aligned_row year_input station_id cols) = inr []
             ∧ e = IndexError)
          ∨ (∃ r rows,
               predict m (aligned_row year_input station_id cols) = inr (r :: rows)
               ∧ length r ≠ 6 ∧ e = ValueError))).
Proof.
  destruct (script_view_run d true year_input station_id σ) as [-> _].
  unfold script_view. destruct d as [[e1|m] [e2|cols]]; cbn [pollution_model_pkl_file
    model_columns_pkl_file].
  - intros [= ->]. by left.
  - intros [= ->]. by left.
  - intros [= ->]. right; left. by exists m.
  - intros Hfail. right; right. exists m, cols. split_and!; [done..| |].
    + intros ->. unfold panel_view in Hfail. by rewrite decide_True in Hfail.
    + unfold panel_view in Hfail. cbn [pollution_model_pkl model_columns_pkl] in Hfail.
      destruct (decide (station_id = "")); [done|].
      unfold prediction_events in Hfail.
      destruct (predict m _) as [e'|[|r rows]]; cbn [fst] in Hfail.
      * left. by injection Hfail as ->.
      * right; left. by injection Hfail as <-.
      * right; right. exists r, rows. rewrite chart_frame_six in Hfail.
        destruct (decide (length r = 6)); [done|]. by injection Hfail as <-.
Qed.

End Reruns.

(** ** The metric grid and the station label *)

Section Display.

Context {num : Type}.

Local Abbreviation state := (state (num:=num)).
Local Abbreviation event := (event (num:=num)).

Implicit Types (σ : state) (r : list num) (placed : list (nat * event)).

Lemma st_columns_lookup i : st_columns 3 !! (i mod 3) = Some (i mod 3).
Proof.
  unfold st_columns. rewrite lookup_seq_lt; [done|].
  apply Nat.mod_upper_bound. lia.
Qed.

Lemma place_metrics_run i (items : list (string * num * string)) :
  ∃ placed,
    place_metrics (st_columns 3) i items = inr placed
    ∧ placed.*2 = (λ pvu, st_metric pvu.1.1 pvu.1.2 pvu.2) <$> items
    ∧ ∀ k ce, placed !! k = Some ce → ce.1 = (i + k) mod 3.
Proof.
  revert i. induction items as [|pvu items IH]; intros i.
  { exists []. by split_and!. }
  destruct (IH (S i)) as (placed & Hrun & Hev & Hcol).
  cbn [place_metrics]. rewrite st_columns_lookup, Hrun. eexists. split_and!; [done| |].
  - cbn. by rewrite Hev.
  - intros [|k] ce.
    + intros [= <-]. cbn [fst]. by rewrite Nat.add_0_r.
    + intros Hk%Hcol. rewrite Hk. by replace (i + S k) with (S i + k) by lia.
Qed.

(** X16.  The grid of lines 120-127 never indexes outside the three
    containers: metric number [k] lands in container [k mod 3], the
    metrics are those the panel shows, in the same order, and with six
    predictions each container receives exactly two. *)
Theorem metric_grid_layout r :
  ∃ placed,
    metric_grid r = inr placed
    ∧ placed.*2 = metrics r
    ∧ (∀ k ce, placed !! k = Some ce → ce.1 = k mod 3 ∧ ce.1 < 3)
    ∧ (length r = 6 →
       ∀ c, c < 3 → length (filter (λ ce, ce.1 = c) placed) = 2).
Proof.
  unfold metric_grid.
  destruct (place_metrics_run 0 (zip3 pollutants r pollutant_units))
    as (placed & Hrun & Hev & Hcol).
  exists placed. split_and!; [done|done| |].
  - intros k ce Hk%Hcol. rewrite Nat.add_0_l in Hk. rewrite Hk. split; [done|].
    apply Nat.mod_upper_bound. lia.
  - intros Hlen c Hc.
    destruct r as [|v1 [|v2 [|v3 [|v4 [|v5 [|v6 [|]]]]]]]; try done.
    vm_compute in Hrun. injection Hrun as <-.
    by destruct c as [|[|[|c]]]; [..|lia].
Qed.

(** X17.  The station label of the information panel follows the guard
    of the results panel: a non-empty station id, one made of blanks
    included, is shown exactly as typed; the label reads "Not specified"
    exactly when the id is empty or is that very text; and the results
    panel answers with the warning exactly when the label differs from
    what was typed. *)
Theorem station_label_follows_guard (station_id : string) :
  (station_id ≠ "" → station_label station_id = station_id)
  ∧ (station_label station_id = "Not specified"
     ↔ station_id = "" ∨ station_id = "Not specified")
  ∧ (∀ σ year_input,
       (results_panel true year_input station_id σ).1 = inr Warned
       ↔ station_label station_id ≠ station_id).
Proof.
  split_and!.
  - by destruct station_id.
  - destruct station_id; [by split; [left|]|]. cbn. split; [by right|by intros [|]].
  - intros σ y. split.
    + intros Hw. destruct (decide (station_id = "")) as [->|Hs]; [done|].
      by destruct (panel_truthy_outcome y station_id σ Hs).
    + intros Hne. destruct station_id; [by rewrite panel_warned_run|done].
Qed.

End Display.

(** ** Examples on the demo deployments *)

Example short_state_loaded : loaded short_files short_state.
Proof. split; reflexivity. Qed.

Example failing_state_loaded : loaded failing_files failing_state.
Proof. split; reflexivity. Qed.

Example yearless_state_loaded : loaded yearless_files yearless_state.
Proof. split; reflexivity. Qed.

Lemma fill_loop_only_appends_witness :
  frame_at "input_encoded" demo_dummies_state
  = Some [("year", VInt 2025); ("id_1", VBool true)]
  ∧ (for_each ["year"; "id_1"; "id_2"] fill_column demo_dummies_state).1 = inr ()
  ∧ ∃ ext,
      frame_at "input_encoded"
        (for_each ["year"; "id_1"; "id_2"] fill_column demo_dummies_state).2
      = Some ([("year", VInt 2025); ("id_1", VBool true)] ++ ext)
      ∧ Forall (λ cv, cv.2 = VInt 0 ∧ cv.1 ∈ ["year"; "id_1"; "id_2"]
                      ∧ cv.1 ∉ columns [("year", VInt 2025); ("id_1", VBool true)]) ext
      ∧ NoDup (columns ext).
Proof.
  split; [reflexivity|].
  apply (fill_loop_only_appends ["year"; "id_1"; "id_2"] demo_dummies_state
           [("year", VInt 2025); ("id_1", VBool true)]).
  reflexivity.
Defined.

Lemma fill_loop_idempotent_witness :
  frame_at "input_encoded" demo_dummies_state
  = Some [("year", VInt 2025); ("id_1", VBool true)]
  ∧ (for_each ["id_2"; "id_3"] fill_column;; for_each ["id_2"; "id_3"] fill_column)
      demo_dummies_state
    = for_each ["id_2"; "id_3"] fill_column demo_dummies_state.
Proof.
  split; [reflexivity|].
  apply (fill_loop_idempotent ["id_2"; "id_3"] demo_dummies_state
           [("year", VInt 2025); ("id_1", VBool true)]).
  reflexivity.
Defined.

Lemma align_never_raises_witness :
  frame_at "input_encoded" demo_dummies_state
  = Some [("year", VInt 2025); ("id_1", VBool true)]
  ∧ list_at "model_cols" demo_dummies_state = Some ["year"; "id_1"; "id_2"]
  ∧ (align demo_dummies_state).1 = inr ().
Proof.
  split; [reflexivity|]. split; [reflexivity|].
  apply (align_never_raises demo_dummies_state
           [("year", VInt 2025); ("id_1", VBool true)] ["year"; "id_1"; "id_2"]);
    reflexivity.
Defined.

Lemma align_distinct_labels_witness :
  frame_at "input_encoded" demo_dummies_state
  = Some [("year", VInt 2025); ("id_1", VBool true)]
  ∧ list_at "model_cols" demo_dummies_state = Some ["year"; "id_1"; "id_2"]
  ∧ NoDup (columns [("year", VInt 2025); ("id_1", VBool true)])
  ∧ ∃ X, frame_at "input_encoded" (align demo_dummies_state).2 = Some X
         ∧ columns X = ["year"; "id_1"; "id_2"]
         ∧ ∀ c v, (c, v) ∈ [("year", VInt 2025); ("id_1", VBool true)] →
                  c ∈ ["year"; "id_1"; "id_2"] → (c, v) ∈ X.
Proof.
  assert (NoDup (columns [("year", VInt 2025); ("id_1", VBool true)])) as Hnd
    by compute_done.
  split; [reflexivity|]. split; [reflexivity|]. split; [exact Hnd|].
  apply (align_distinct_labels demo_dummies_state
           [("year", VInt 2025); ("id_1", VBool true)] ["year"; "id_1"; "id_2"]);
    [reflexivity | reflexivity | exact Hnd].
Defined.

Lemma input_df_kept_witness :
  loaded demo_files demo_state
  ∧ frame_at "input_df" (encode 2025 "1" demo_state).2
    = Some [("year", VInt 2025); ("id", VStr "1")].
Proof.
  split; [split; reflexivity|].
  apply (input_df_kept demo_files 2025 "1" demo_state). split; reflexivity.
Defined.

Lemma unknown_stations_same_row_witness :
  loaded demo_files demo_state ∧ "98" ≠ "" ∧ "99" ≠ ""
  ∧ (("id_" +:+ "98") ∉ model_columns_pkl demo_files)
  ∧ (("id_" +:+ "99") ∉ model_columns_pkl demo_files)
  ∧ frame_at "input_encoded" (encode 2025 "98" demo_state).2
    = frame_at "input_encoded" (encode 2025 "99" demo_state).2
  ∧ (results_panel true 2025 "98" demo_state).1 = (results_panel true 2025 "99" demo_state).1.
Proof.
  assert (("id_" +:+ "98") ∉ model_columns_pkl demo_files) as H98 by compute_done.
  assert (("id_" +:+ "99") ∉ model_columns_pkl demo_files) as H99 by compute_done.
  split; [split; reflexivity|]. split; [discriminate|]. split; [discriminate|].
  split; [exact H98|]. split; [exact H99|].
  apply (unknown_stations_same_row demo_files 2025 "98" "99" demo_state);
    [split; reflexivity | discriminate | discriminate | exact H98 | exact H99].
Defined.

Lemma known_station_distinct_row_witness :
  loaded demo_files demo_state
  ∧ (("id_" +:+ "1") ∈ model_columns_pkl demo_files)
  ∧ "1" ≠ "2"
  ∧ frame_at "input_encoded" (encode 2025 "1" demo_state).2
    ≠ frame_at "input_encoded" (encode 2025 "2" demo_state).2.
Proof.
  assert (("id_" +:+ "1") ∈ model_columns_pkl demo_files) as Hknown by compute_done.
  split; [split; reflexivity|]. split; [exact Hknown|]. split; [discriminate|].
  apply (known_station_distinct_row demo_files 2025 "1" "2" demo_state);
    [split; reflexivity | exact Hknown | discriminate].
Defined.

Lemma year_matters_iff_year_column_witness :
  loaded yearless_files yearless_state
  ∧ frame_at "input_encoded" (encode 2025 "1" yearless_state).2
    = frame_at "input_encoded" (encode 2090 "1" yearless_state).2.
Proof.
  split; [split; reflexivity|].
  apply (year_matters_iff_year_column yearless_files 2025 2090 "1" yearless_state);
    [split; reflexivity|].
  right. compute_done.
Defined.

Lemma encoded_row_numeric_witness :
  loaded demo_files demo_state
  ∧ ∃ xs, (frame_at "input_encoded" (encode 2025 "1" demo_state).2 ≫= to_numpy) = Some xs
          ∧ length xs = length (model_columns_pkl demo_files)
          ∧ ∀ x, x ∈ xs → (x = 2025 ∨ x = 1 ∨ x = 0)%Z.
Proof.
  split; [split; reflexivity|].
  apply (encoded_row_numeric demo_files 2025 "1" demo_state). split; reflexivity.
Defined.

Lemma wrong_length_partial_display_witness :
  loaded short_files short_state ∧ "1" ≠ ""
  ∧ predict (pollution_model_pkl short_files)
      (aligned_row 2025 "1" (model_columns_pkl short_files)) = inr ([1; 2; 3]%Z :: [])
  ∧ length [1; 2; 3]%Z ≠ 6
  ∧ (results_panel true 2025 "1" short_state).1 = inl ValueError
  ∧ shown short_state (results_panel true 2025 "1" short_state).2
    = model_predict (aligned_row 2025 "1" (model_columns_pkl short_files))
      :: st_success "1" 2025 :: metrics [1; 2; 3]%Z
  ∧ length (metrics [1; 2; 3]%Z) = Nat.min 6 (length [1; 2; 3]%Z).
Proof.
  split; [split; reflexivity|]. split; [discriminate|]. split; [reflexivity|].
  split; [discriminate|].
  apply (wrong_length_partial_display short_files 2025 "1" short_state [1; 2; 3]%Z []);
    [split; reflexivity | discriminate | reflexivity | discriminate].
Defined.

Lemma estimator_failure_propagates_witness :
  loaded failing_files failing_state ∧ "1" ≠ ""
  ∧ predict (pollution_model_pkl failing_files)
      (aligned_row 2025 "1" (model_columns_pkl failing_files)) = inl EstimatorError
  ∧ (results_panel true 2025 "1" failing_state).1 = inl EstimatorError
  ∧ shown failing_state (results_panel true 2025 "1" failing_state).2
    = [model_predict (aligned_row 2025 "1" (model_columns_pkl failing_files))]
  ∧ frame_at "input_encoded" (results_panel true 2025 "1" failing_state).2
    = Some (aligned_row 2025 "1" (model_columns_pkl failing_files)).
Proof.
  split; [split; reflexivity|]. split; [discriminate|]. split; [reflexivity|].
  apply (estimator_failure_propagates failing_files 2025 "1" failing_state EstimatorError);
    [split; reflexivity | discriminate | left; reflexivity].
Defined.

Lemma predicted_means_six_witness :
  loaded demo_files demo_state
  ∧ (results_panel true 2025 "1" demo_state).1
    = inr (Predicted [2027; 2028; 2029; 2030; 2031; 2032]%Z)
  ∧ length [2027; 2028; 2029; 2030; 2031; 2032]%Z = 6.
Proof.
  split; [split; reflexivity|]. split; [reflexivity|].
  apply (predicted_means_six demo_files 2025 "1" demo_state
           [2027; 2028; 2029; 2030; 2031; 2032]%Z);
    [split; reflexivity | reflexivity].
Defined.

Lemma startup_any_state_witness :
  (startup (readable demo_files) demo_state_later).1 = inr ()
  ∧ loaded demo_files (startup (readable demo_files) demo_state_later).2
  ∧ startup missing_model_disk demo_state_later = (inl FileNotFoundError, demo_state_later)
  ∧ (startup missing_columns_disk demo_state_later).1 = inl UnpicklingError.
Proof.
  destruct (startup_any_state (readable demo_files) demo_state_later) as (Hok & Hl & _ & _).
  destruct (startup_any_state missing_model_disk demo_state_later) as (_ & _ & Hm & _).
  destruct (startup_any_state missing_columns_disk demo_state_later) as (_ & _ & _ & Hc).
  split; [apply Hok; by exists demo_files|].
  split; [by apply (Hl demo_files)|].
  split; [by apply Hm|].
  by apply (Hc demo_estimator UnpicklingError).
Defined.

Lemma script_failures_witness :
  (script (readable short_files) true 2025 "1" empty_state).1 = inl ValueError
  ∧ ∃ r rows,
      predict short_estimator (aligned_row 2025 "1" ["year"; "id_1"; "id_2"])
      = inr (r :: rows)
      ∧ length r ≠ 6.
Proof.
  split; [reflexivity|].
  destruct (script_failures (readable short_files) 2025 "1" empty_state ValueError)
    as [Hm|[(m & _ & Hc)|(m & cols & Hm & Hc & _ & Hcase)]];
    [reflexivity | discriminate Hm | discriminate Hc |].
  injection Hm as <-. injection Hc as <-.
  destruct Hcase as [Hp|[[_ He]|(r & rows & Hp & Hlen & _)]];
    [discriminate Hp | discriminate He |].
  by exists r, rows.
Defined.

Lemma metric_grid_layout_witness :
  ∃ placed,
    metric_grid [10; 20; 30; 40; 50; 60]%Z = inr placed
    ∧ length (filter (λ ce, ce.1 = 0) placed) = 2
    ∧ length (filter (λ ce, ce.1 = 1) placed) = 2
    ∧ length (filter (λ ce, ce.1 = 2) placed) = 2.
Proof.
  destruct (metric_grid_layout [10; 20; 30; 40; 50; 60]%Z) as (placed & Hrun & _ & _ & Htwo).
  exists placed. split; [exact Hrun|].
  split_and!; apply Htwo; (reflexivity || lia).
Defined.

Lemma station_label_follows_guard_witness :
  station_label "" = "Not specified"
  ∧ station_label " " = " "
  ∧ (results_panel true 2025 "" demo_state).1 = inr Warned.
Proof.
  destruct (station_label_follows_guard (num:=Z) "") as (_ & Hns & Hw).
  destruct (station_label_follows_guard (num:=Z) " ") as (Hs & _ & _).
  split; [apply Hns; by left|]. split; [apply Hs; discriminate|].
  apply (Hw demo_state 2025%Z). discriminate.
Defined.
